(** * The client invocation pipeline of tRPC-Go

    A shallow embedding of [client/client.go] (together with
    [registry.Node] and [internal/codec.IsValidSerializationType]) and
    the properties its specification states about it.

    Conventions of the embedding.
    - A Go [*T] that is shared and mutated ([*Options], the response
      object) lives in a store of the [World]; the code holds its index.
    - The per-call [codec.Msg] is one cell of the [World].
    - Whatever the package does not own -- clock, context cancellation,
      selector, transport, codec, serializer and compressor registries,
      package [net], string formatting -- is a field of [Env] or of a
      handle stored in [Options].
    - Every call on a collaborator is recorded, in order, in the trace
      of the [World].
    - rpcz spans and report counters carry no control flow and are left
      out. *)

From Stdlib Require Import ZArith List String Bool Lia.
Import ListNotations.
Open Scope string_scope.
Open Scope list_scope.
Open Scope Z_scope.

(** [[]byte]; the nil slice and the empty slice are both the empty list
    (the code only ever takes [len] of a buffer). *)
Definition bytes : Type := list Byte.byte.

(** ** Package [errs] *)
Module errs.

Inductive ErrorType : Type :=
| ErrorTypeFramework
| ErrorTypeBusiness
| ErrorTypeCalleeFramework.

(** The return codes [client.go] names, and every other code.  Their
    numeric values are declared in package [errs] itself; all that is
    used of them here is that they are different constants. *)
Inductive RetCode : Type :=
| RetClientTimeout
| RetClientFullLinkTimeout
| RetClientConnectFail
| RetClientEncodeFail
| RetClientDecodeFail
| RetClientRouteErr
| RetClientNetErr
| RetClientCanceled
| RetOther (n : Z).

Definition RetCode_eqb (a b : RetCode) : bool :=
  match a, b with
  | RetClientTimeout, RetClientTimeout
  | RetClientFullLinkTimeout, RetClientFullLinkTimeout
  | RetClientConnectFail, RetClientConnectFail
  | RetClientEncodeFail, RetClientEncodeFail
  | RetClientDecodeFail, RetClientDecodeFail
  | RetClientRouteErr, RetClientRouteErr
  | RetClientNetErr, RetClientNetErr
  | RetClientCanceled, RetClientCanceled => true
  | RetOther n, RetOther m => Z.eqb n m
  | _, _ => false
  end.

Definition ErrorType_eqb (a b : ErrorType) : bool :=
  match a, b with
  | ErrorTypeFramework, ErrorTypeFramework
  | ErrorTypeBusiness, ErrorTypeBusiness
  | ErrorTypeCalleeFramework, ErrorTypeCalleeFramework => true
  | _, _ => false
  end.

(** [errs.Error]; [Type_] is the field [Type]. *)
Record Error : Type := mkError {
  Type_ : ErrorType;
  Code : RetCode;
  Msg : string
}.

(** The non-nil values of Go's [error] interface: a [*errs.Error], the
    sentinel [ErrClientNoResponse] (compared by identity in the code,
    hence a value of its own), or an error of some other dynamic type,
    known by its text.  An [error] holding a nil [*errs.Error] is not
    among them: the client would dereference it. *)
Inductive value : Type :=
| Ptr (e : Error)
| ClientNoResponse
| Other (text : string).

(** An [error]: [None] is [nil]. *)
Definition error : Type := option value.

Definition ErrClientNoResponse : value := ClientNoResponse.

(** [errs.NewFrameError(code, msg)]. *)
Definition NewFrameError (code : RetCode) (msg : string) : value :=
  Ptr {| Type_ := ErrorTypeFramework; Code := code; Msg := msg |}.

(** What a Go function of type [(T, error)] returns: every caller in the
    client drops the [T] when the error is not nil. *)
Definition result (T : Type) : Type := (T + value)%type.

End errs.

(** ** Package [time] *)
Module time.

Definition minDuration : Z := - 2 ^ 63.
Definition maxDuration : Z := 2 ^ 63 - 1.

(** A [time.Duration] is an int64 count of nanoseconds. *)
Definition is_Duration (d : Z) : Prop := minDuration <= d <= maxDuration.

(** [t.Sub(u)]: instants are nanosecond counts; the difference saturates
    at the ends of the int64 range. *)
Definition Sub (t u : Z) : Z :=
  if t - u <? minDuration then minDuration
  else if maxDuration <? t - u then maxDuration
  else t - u.

End time.

(** ** Package [net] *)
Module net.

Record TCPAddr : Type := mkTCPAddr { tcpIP : bytes; tcpPort : Z; tcpZone : string }.
Record UDPAddr : Type := mkUDPAddr { udpIP : bytes; udpPort : Z; udpZone : string }.
Record UnixAddr : Type := mkUnixAddr { unixName : string; unixNet : string }.

(** The non-nil values of the interface [net.Addr]: a dynamic type and a
    pointer of that type.  The pointer may be nil ([None]): an interface
    holding a nil [*TCPAddr] is not the nil interface. *)
Inductive Addr : Type :=
| TCP (p : option TCPAddr)
| UDP (p : option UDPAddr)
| Unix (p : option UnixAddr)
| OtherAddr (text : string).

End net.

(** ** Package [context] *)
Module context.

(** What the client reads of a [context.Context]: its deadline, the
    [*Options] attached by [contextWithOptions], and the marker read by
    [IsOptionsImmutable]. *)
Record Ctx : Type := mkCtx {
  Deadline : option Z;
  ctxOptions : nat;
  ctxImmutable : bool
}.

Inductive CtxErr : Type := NoErr | Canceled | DeadlineExceeded.

(** [ctx.Err().Error()]. *)
Definition CtxErr_Error (e : CtxErr) : string :=
  match e with
  | NoErr => ""
  | Canceled => "context canceled"
  | DeadlineExceeded => "context deadline exceeded"
  end.

(** [context.WithTimeout(parent, timeout)], called at instant [now]: the
    child's deadline is [now + timeout] unless the parent's is earlier. *)
Definition WithTimeout (parent : Ctx) (timeout now : Z) : Ctx :=
  let d := now + timeout in
  {| Deadline := match Deadline parent with
                 | Some cur => if cur <? d then Some cur else Some d
                 | None => Some d
                 end;
     ctxOptions := ctxOptions parent;
     ctxImmutable := ctxImmutable parent |}.

Definition contextWithOptions (ctx : Ctx) (p : nat) : Ctx :=
  {| Deadline := Deadline ctx; ctxOptions := p; ctxImmutable := ctxImmutable ctx |}.

End context.

(** ** Package [registry] (src/unnamed/part_000) *)
Module registry.
Section WithBody.
Context {Body : Type}.

Record Node : Type := mkNode {
  ServiceName : string;
  ContainerName : string;
  Address : string;
  Network : string;
  Protocol : string;
  SetName : string;
  Weight : Z;
  CostTime : Z;
  EnvKey : string;
  Metadata : list (string * Body)
}.

End WithBody.
Arguments Node : clear implicits.
End registry.

(** ** Package [internal/codec] (src/unnamed/part_001) *)
Module icodec.

(** [IsValidSerializationType(t)]; the floor [codec.SerializationTypePB]
    is a constant of package [codec] and is taken as a parameter. *)
Definition IsValidSerializationType (SerializationTypePB : Z) (t : Z) : bool :=
  let minValidSerializationType := SerializationTypePB in
  t >=? minValidSerializationType.

End icodec.

(** ** Package [codec]: the per-call message *)
Module codec.

(** [codec.MetaData], a [map[string][]byte], as an association list. *)
Definition MetaData : Type := list (string * bytes).

(** [md[k] = v]. *)
Fixpoint MetaData_set (k : string) (v : bytes) (md : MetaData) : MetaData :=
  match md with
  | [] => [(k, v)]
  | (k', v') :: rest =>
      if String.eqb k k' then (k, v) :: rest else (k', v') :: MetaData_set k v rest
  end.

(** Keys of [codec.CommonMeta]: [attachment.ClientAttachmentKey{}] and
    the others. *)
Inductive MetaKey : Type :=
| ClientAttachmentKey
| OtherKey (name : string).

Definition MetaKey_eqb (a b : MetaKey) : bool :=
  match a, b with
  | ClientAttachmentKey, ClientAttachmentKey => true
  | OtherKey n, OtherKey m => String.eqb n m
  | _, _ => false
  end.

Section WithBody.
Context {Body : Type}.

(** [cm[k] = v] on a [codec.CommonMeta]. *)
Fixpoint CommonMeta_set (k : MetaKey) (v : Body) (cm : list (MetaKey * Body))
  : list (MetaKey * Body) :=
  match cm with
  | [] => [(k, v)]
  | (k', v') :: rest =>
      if MetaKey_eqb k k' then (k, v) :: rest else (k', v') :: CommonMeta_set k v rest
  end.

(** The state behind the interface [codec.Msg]: one field per getter the
    client uses; [WithX] is the setter of [X].  A map that may be nil is
    an [option]. *)
Record Msg : Type := mkMsg {
  CallerServiceName : string;
  CalleeServiceName : string;
  CalleeMethod : string;
  CalleeContainerName : string;
  CalleeSetName : string;
  Namespace : string;
  EnvName : string;
  EnvTransfer : string;
  SetName : string;
  SerializationType : Z;
  CompressType : Z;
  RequestTimeout : Z;
  RemoteAddr : option net.Addr;
  ClientReqHead : option Body;
  ClientRspHead : option Body;
  CommonMeta : option (list (MetaKey * Body));
  ClientMetaData : option MetaData;
  CallType : Z;
  ClientRspErr : errs.error
}.

(** [msg.WithCalleeServiceName(v)] *)
Definition WithCalleeServiceName (v : string) (r : Msg) : Msg :=
  {| CallerServiceName := CallerServiceName r; CalleeServiceName := v;
     CalleeMethod := CalleeMethod r; CalleeContainerName := CalleeContainerName r;
     CalleeSetName := CalleeSetName r; Namespace := Namespace r; EnvName := EnvName r;
     EnvTransfer := EnvTransfer r; SetName := SetName r;
     SerializationType := SerializationType r; CompressType := CompressType r;
     RequestTimeout := RequestTimeout r; RemoteAddr := RemoteAddr r;
     ClientReqHead := ClientReqHead r; ClientRspHead := ClientRspHead r;
     CommonMeta := CommonMeta r; ClientMetaData := ClientMetaData r; CallType := CallType r;
     ClientRspErr := ClientRspErr r |}.

(** [msg.WithCalleeMethod(v)] *)
Definition WithCalleeMethod (v : string) (r : Msg) : Msg :=
  {| CallerServiceName := CallerServiceName r; CalleeServiceName := CalleeServiceName r;
     CalleeMethod := v; CalleeContainerName := CalleeContainerName r;
     CalleeSetName := CalleeSetName r; Namespace := Namespace r; EnvName := EnvName r;
     EnvTransfer := EnvTransfer r; SetName := SetName r;
     SerializationType := SerializationType r; CompressType := CompressType r;
     RequestTimeout := RequestTimeout r; RemoteAddr := RemoteAddr r;
     ClientReqHead := ClientReqHead r; ClientRspHead := ClientRspHead r;
     CommonMeta := CommonMeta r; ClientMetaData := ClientMetaData r; CallType := CallType r;
     ClientRspErr := ClientRspErr r |}.

(** [msg.WithClientMetaData(v)] *)
Definition WithClientMetaData (v : option MetaData) (r : Msg) : Msg :=
  {| CallerServiceName := CallerServiceName r; CalleeServiceName := CalleeServiceName r;
     CalleeMethod := CalleeMethod r; CalleeContainerName := CalleeContainerName r;
     CalleeSetName := CalleeSetName r; Namespace := Namespace r; EnvName := EnvName r;
     EnvTransfer := EnvTransfer r; SetName := SetName r;
     SerializationType := SerializationType r; CompressType := CompressType r;
     RequestTimeout := RequestTimeout r; RemoteAddr := RemoteAddr r;
     ClientReqHead := ClientReqHead r; ClientRspHead := ClientRspHead r;
     CommonMeta := CommonMeta r; ClientMetaData := v; CallType := CallType r;
     ClientRspErr := ClientRspErr r |}.

(** [msg.WithCallerServiceName(v)] *)
Definition WithCallerServiceName (v : string) (r : Msg) : Msg :=
  {| CallerServiceName := v; CalleeServiceName := CalleeServiceName r;
     CalleeMethod := CalleeMethod r; CalleeContainerName := CalleeContainerName r;
     CalleeSetName := CalleeSetName r; Namespace := Namespace r; EnvName := EnvName r;
     EnvTransfer := EnvTransfer r; SetName := SetName r;
     SerializationType := SerializationType r; CompressType := CompressType r;
     RequestTimeout := RequestTimeout r; RemoteAddr := RemoteAddr r;
     ClientReqHead := ClientReqHead r; ClientRspHead := ClientRspHead r;
     CommonMeta := CommonMeta r; ClientMetaData := ClientMetaData r; CallType := CallType r;
     ClientRspErr := ClientRspErr r |}.

(** [msg.WithSerializationType(v)] *)
Definition WithSerializationType (v : Z) (r : Msg) : Msg :=
  {| CallerServiceName := CallerServiceName r; CalleeServiceName := CalleeServiceName r;
     CalleeMethod := CalleeMethod r; CalleeContainerName := CalleeContainerName r;
     CalleeSetName := CalleeSetName r; Namespace := Namespace r; EnvName := EnvName r;
     EnvTransfer := EnvTransfer r; SetName := SetName r; SerializationType := v;
     CompressType := CompressType r; RequestTimeout := RequestTimeout r;
     RemoteAddr := RemoteAddr r; ClientReqHead := ClientReqHead r;
     ClientRspHead := ClientRspHead r; CommonMeta := CommonMeta r;
     ClientMetaData := ClientMetaData r; CallType := CallType r;
     ClientRspErr := ClientRspErr r |}.

(** [msg.WithCompressType(v)] *)
Definition WithCompressType (v : Z) (r : Msg) : Msg :=
  {| CallerServiceName := CallerServiceName r; CalleeServiceName := CalleeServiceName r;
     CalleeMethod := CalleeMethod r; CalleeContainerName := CalleeContainerName r;
     CalleeSetName := CalleeSetName r; Namespace := Namespace r; EnvName := EnvName r;
     EnvTransfer := EnvTransfer r; SetName := SetName r;
     SerializationType := SerializationType r; CompressType := v;
     RequestTimeout := RequestTimeout r; RemoteAddr := RemoteAddr r;
     ClientReqHead := ClientReqHead r; ClientRspHead := ClientRspHead r;
     CommonMeta := CommonMeta r; ClientMetaData := ClientMetaData r; CallType := CallType r;
     ClientRspErr := ClientRspErr r |}.

(** [msg.WithClientReqHead(v)] *)
Definition WithClientReqHead (v : option Body) (r : Msg) : Msg :=
  {| CallerServiceName := CallerServiceName r; CalleeServiceName := CalleeServiceName r;
     CalleeMethod := CalleeMethod r; CalleeContainerName := CalleeContainerName r;
     CalleeSetName := CalleeSetName r; Namespace := Namespace r; EnvName := EnvName r;
     EnvTransfer := EnvTransfer r; SetName := SetName r;
     SerializationType := SerializationType r; CompressType := CompressType r;
     RequestTimeout := RequestTimeout r; RemoteAddr := RemoteAddr r; ClientReqHead := v;
     ClientRspHead := ClientRspHead r; CommonMeta := CommonMeta r;
     ClientMetaData := ClientMetaData r; CallType := CallType r;
     ClientRspErr := ClientRspErr r |}.

(** [msg.WithClientRspHead(v)] *)
Definition WithClientRspHead (v : option Body) (r : Msg) : Msg :=
  {| CallerServiceName := CallerServiceName r; CalleeServiceName := CalleeServiceName r;
     CalleeMethod := CalleeMethod r; CalleeContainerName := CalleeContainerName r;
     CalleeSetName := CalleeSetName r; Namespace := Namespace r; EnvName := EnvName r;
     EnvTransfer := EnvTransfer r; SetName := SetName r;
     SerializationType := SerializationType r; CompressType := CompressType r;
     RequestTimeout := RequestTimeout r; RemoteAddr := RemoteAddr r;
     ClientReqHead := ClientReqHead r; ClientRspHead := v; CommonMeta := CommonMeta r;
     ClientMetaData := ClientMetaData r; CallType := CallType r;
     ClientRspErr := ClientRspErr r |}.

(** [msg.WithCallType(v)] *)
Definition WithCallType (v : Z) (r : Msg) : Msg :=
  {| CallerServiceName := CallerServiceName r; CalleeServiceName := CalleeServiceName r;
     CalleeMethod := CalleeMethod r; CalleeContainerName := CalleeContainerName r;
     CalleeSetName := CalleeSetName r; Namespace := Namespace r; EnvName := EnvName r;
     EnvTransfer := EnvTransfer r; SetName := SetName r;
     SerializationType := SerializationType r; CompressType := CompressType r;
     RequestTimeout := RequestTimeout r; RemoteAddr := RemoteAddr r;
     ClientReqHead := ClientReqHead r; ClientRspHead := ClientRspHead r;
     CommonMeta := CommonMeta r; ClientMetaData := ClientMetaData r; CallType := v;
     ClientRspErr := ClientRspErr r |}.

(** [msg.WithCommonMeta(v)] *)
Definition WithCommonMeta (v : option (list (MetaKey * Body))) (r : Msg) : Msg :=
  {| CallerServiceName := CallerServiceName r; CalleeServiceName := CalleeServiceName r;
     CalleeMethod := CalleeMethod r; CalleeContainerName := CalleeContainerName r;
     CalleeSetName := CalleeSetName r; Namespace := Namespace r; EnvName := EnvName r;
     EnvTransfer := EnvTransfer r; SetName := SetName r;
     SerializationType := SerializationType r; CompressType := CompressType r;
     RequestTimeout := RequestTimeout r; RemoteAddr := RemoteAddr r;
     ClientReqHead := ClientReqHead r; ClientRspHead := ClientRspHead r; CommonMeta := v;
     ClientMetaData := ClientMetaData r; CallType := CallType r;
     ClientRspErr := ClientRspErr r |}.

(** [msg.WithRequestTimeout(v)] *)
Definition WithRequestTimeout (v : Z) (r : Msg) : Msg :=
  {| CallerServiceName := CallerServiceName r; CalleeServiceName := CalleeServiceName r;
     CalleeMethod := CalleeMethod r; CalleeContainerName := CalleeContainerName r;
     CalleeSetName := CalleeSetName r; Namespace := Namespace r; EnvName := EnvName r;
     EnvTransfer := EnvTransfer r; SetName := SetName r;
     SerializationType := SerializationType r; CompressType := CompressType r;
     RequestTimeout := v; RemoteAddr := RemoteAddr r; ClientReqHead := ClientReqHead r;
     ClientRspHead := ClientRspHead r; CommonMeta := CommonMeta r;
     ClientMetaData := ClientMetaData r; CallType := CallType r;
     ClientRspErr := ClientRspErr r |}.

(** [msg.WithRemoteAddr(v)] *)
Definition WithRemoteAddr (v : option net.Addr) (r : Msg) : Msg :=
  {| CallerServiceName := CallerServiceName r; CalleeServiceName := CalleeServiceName r;
     CalleeMethod := CalleeMethod r; CalleeContainerName := CalleeContainerName r;
     CalleeSetName := CalleeSetName r; Namespace := Namespace r; EnvName := EnvName r;
     EnvTransfer := EnvTransfer r; SetName := SetName r;
     SerializationType := SerializationType r; CompressType := CompressType r;
     RequestTimeout := RequestTimeout r; RemoteAddr := v; ClientReqHead := ClientReqHead r;
     ClientRspHead := ClientRspHead r; CommonMeta := CommonMeta r;
     ClientMetaData := ClientMetaData r; CallType := CallType r;
     ClientRspErr := ClientRspErr r |}.

(** [msg.WithCalleeContainerName(v)] *)
Definition WithCalleeContainerName (v : string) (r : Msg) : Msg :=
  {| CallerServiceName := CallerServiceName r; CalleeServiceName := CalleeServiceName r;
     CalleeMethod := CalleeMethod r; CalleeContainerName := v; CalleeSetName := CalleeSetName r;
     Namespace := Namespace r; EnvName := EnvName r; EnvTransfer := EnvTransfer r;
     SetName := SetName r; SerializationType := SerializationType r;
     CompressType := CompressType r; RequestTimeout := RequestTimeout r;
     RemoteAddr := RemoteAddr r; ClientReqHead := ClientReqHead r;
     ClientRspHead := ClientRspHead r; CommonMeta := CommonMeta r;
     ClientMetaData := ClientMetaData r; CallType := CallType r;
     ClientRspErr := ClientRspErr r |}.

(** [msg.WithCalleeSetName(v)] *)
Definition WithCalleeSetName (v : string) (r : Msg) : Msg :=
  {| CallerServiceName := CallerServiceName r; CalleeServiceName := CalleeServiceName r;
     CalleeMethod := CalleeMethod r; CalleeContainerName := CalleeContainerName r;
     CalleeSetName := v; Namespace := Namespace r; EnvName := EnvName r;
     EnvTransfer := EnvTransfer r; SetName := SetName r;
     SerializationType := SerializationType r; CompressType := CompressType r;
     RequestTimeout := RequestTimeout r; RemoteAddr := RemoteAddr r;
     ClientReqHead := ClientReqHead r; ClientRspHead := ClientRspHead r;
     CommonMeta := CommonMeta r; ClientMetaData := ClientMetaData r; CallType := CallType r;
     ClientRspErr := ClientRspErr r |}.

(** [msg.WithEnvTransfer(v)] *)
Definition WithEnvTransfer (v : string) (r : Msg) : Msg :=
  {| CallerServiceName := CallerServiceName r; CalleeServiceName := CalleeServiceName r;
     CalleeMethod := CalleeMethod r; CalleeContainerName := CalleeContainerName r;
     CalleeSetName := CalleeSetName r; Namespace := Namespace r; EnvName := EnvName r;
     EnvTransfer := v; SetName := SetName r; SerializationType := SerializationType r;
     CompressType := CompressType r; RequestTimeout := RequestTimeout r;
     RemoteAddr := RemoteAddr r; ClientReqHead := ClientReqHead r;
     ClientRspHead := ClientRspHead r; CommonMeta := CommonMeta r;
     ClientMetaData := ClientMetaData r; CallType := CallType r;
     ClientRspErr := ClientRspErr r |}.

(** [msg.WithClientRspErr(v)] *)
Definition WithClientRspErr (v : errs.error) (r : Msg) : Msg :=
  {| CallerServiceName := CallerServiceName r; CalleeServiceName := CalleeServiceName r;
     CalleeMethod := CalleeMethod r; CalleeContainerName := CalleeContainerName r;
     CalleeSetName := CalleeSetName r; Namespace := Namespace r; EnvName := EnvName r;
     EnvTransfer := EnvTransfer r; SetName := SetName r;
     SerializationType := SerializationType r; CompressType := CompressType r;
     RequestTimeout := RequestTimeout r; RemoteAddr := RemoteAddr r;
     ClientReqHead := ClientReqHead r; ClientRspHead := ClientRspHead r;
     CommonMeta := CommonMeta r; ClientMetaData := ClientMetaData r; CallType := CallType r;
     ClientRspErr := v |}.

(** The interface [codec.Codec]; both operations may rewrite the
    message they are handed. *)
Record Codec : Type := mkCodec {
  Encode : Msg -> bytes -> errs.result bytes * Msg;
  Decode : Msg -> bytes -> errs.result bytes * Msg
}.

End WithBody.
Arguments Msg : clear implicits.
Arguments Codec : clear implicits.
End codec.

(** ** Package [naming/selector]: select options *)
Module selector.

Inductive Option : Type :=
| WithSourceNamespace (s : string)
| WithSourceServiceName (s : string)
| WithSourceEnvName (s : string)
| WithEnvTransfer (s : string)
| WithSourceSetName (s : string)
| WithContext (ctx : context.Ctx)
| OtherOption (name : string).

Section WithWorld.
Context {Body Ext : Type}.

(** The interface [selector.Selector], acting on the state [Ext] of the
    world outside the process.  The error [Report] returns is dropped by
    the client and is left out. *)
Record Selector : Type := mkSelector {
  Select : string -> list Option -> Ext -> errs.result (registry.Node Body) * Ext;
  Report : registry.Node Body -> Z -> errs.error -> Ext -> Ext
}.

End WithWorld.
Arguments Selector : clear implicits.
End selector.

(** ** Package [transport]: call options *)
Module transport.

(** [WithMsg(msg)] carries the pointer to the message of the call, of
    which there is one. *)
Inductive CallOption : Type :=
| WithMsg
| WithMultiplexed (b : bool)
| OtherCallOption (name : string).

Section WithWorld.
Context {Body Ext : Type}.

(** The interface [transport.ClientTransport]; a round trip may rewrite
    the message of the call and changes the outside world. *)
Record ClientTransport : Type := mkClientTransport {
  RoundTrip : context.Ctx -> bytes -> list CallOption -> codec.Msg Body -> Ext ->
              errs.result bytes * codec.Msg Body * Ext
}.

End WithWorld.
Arguments ClientTransport : clear implicits.
End transport.

(** ** Package [client] *)
Module client.

(** [e.Code = errs.RetClientFullLinkTimeout]. *)
Definition retagged (e : errs.Error) : errs.Error :=
  {| errs.Type_ := errs.Type_ e; errs.Code := errs.RetClientFullLinkTimeout;
     errs.Msg := errs.Msg e |}.

(** Modelled from the spec: the adapter [mayConvert2FullLinkTimeout] is
    declared in another file of the package.  Section 4.6:
    "an adapter that, on observing ClientTimeout, re-tags it as
    ClientFullLinkTimeout". *)
Definition mayConvert2FullLinkTimeout (err : errs.error) : errs.error :=
  match err with
  | Some (errs.Ptr e) =>
      if errs.RetCode_eqb (errs.Code e) errs.RetClientTimeout
      then Some (errs.Ptr (retagged e))
      else err
  | _ => err
  end.

(** Modelled from the spec: the value [fixTimeout] has in fresh
    [Options], set in another file of the package.  Section 4.6:
    "Default is identity". *)
Definition defaultFixTimeout (err : errs.error) : errs.error := err.

(** An entry of [Options.Filters].  Go cannot compare functions; the
    chain is kept as references so that its shape can be stated:
    [selectorFilter] itself, or the [i]-th interceptor the user
    registered. *)
Inductive FilterRef : Type :=
| SelectorFilterRef
| UserFilterRef (i : nat).

Section Types.
Context {Body Ext : Type}.

(** [client.Options], the fields [client.go] reads or writes. *)
Record Options : Type := mkOptions {
  ServiceName : string;
  endpoint : string;
  CalleeMethod : string;
  MetaData : codec.MetaData;
  CallerServiceName : string;
  SerializationType : Z;
  CompressType : Z;
  CurrentSerializationType : Z;
  CurrentCompressType : Z;
  ReqHead : option Body;
  RspHead : option Body;
  CallType : Z;
  attachment : option Body;
  Timeout : Z;
  fixTimeout : errs.error -> errs.error;
  Filters : list FilterRef;
  FilterNames : list string;
  DisableFilter : bool;
  selectorFilterPosFixed : bool;
  Codec : option (codec.Codec Body);
  Transport : transport.ClientTransport Body Ext;
  Selector : selector.Selector Body Ext;
  EnableMultiplexed : bool;
  CallOptions : list transport.CallOption;
  SelectOptions : list selector.Option;
  shouldErrReportToSelector : errs.error -> bool;
  Node : option (registry.Node Body);
  Network : string;
  DisableServiceRouter : bool
}.

(** [opts.endpoint = v] *)
Definition set_endpoint (v : string) (r : Options) : Options :=
  {| ServiceName := ServiceName r; endpoint := v; CalleeMethod := CalleeMethod r;
     MetaData := MetaData r; CallerServiceName := CallerServiceName r;
     SerializationType := SerializationType r; CompressType := CompressType r;
     CurrentSerializationType := CurrentSerializationType r;
     CurrentCompressType := CurrentCompressType r; ReqHead := ReqHead r; RspHead := RspHead r;
     CallType := CallType r; attachment := attachment r; Timeout := Timeout r;
     fixTimeout := fixTimeout r; Filters := Filters r; FilterNames := FilterNames r;
     DisableFilter := DisableFilter r; selectorFilterPosFixed := selectorFilterPosFixed r;
     Codec := Codec r; Transport := Transport r; Selector := Selector r;
     EnableMultiplexed := EnableMultiplexed r; CallOptions := CallOptions r;
     SelectOptions := SelectOptions r; shouldErrReportToSelector := shouldErrReportToSelector r;
     Node := Node r; Network := Network r; DisableServiceRouter := DisableServiceRouter r |}.

(** [opts.fixTimeout = v] *)
Definition set_fixTimeout (v : errs.error -> errs.error) (r : Options) : Options :=
  {| ServiceName := ServiceName r; endpoint := endpoint r; CalleeMethod := CalleeMethod r;
     MetaData := MetaData r; CallerServiceName := CallerServiceName r;
     SerializationType := SerializationType r; CompressType := CompressType r;
     CurrentSerializationType := CurrentSerializationType r;
     CurrentCompressType := CurrentCompressType r; ReqHead := ReqHead r; RspHead := RspHead r;
     CallType := CallType r; attachment := attachment r; Timeout := Timeout r; fixTimeout := v;
     Filters := Filters r; FilterNames := FilterNames r; DisableFilter := DisableFilter r;
     selectorFilterPosFixed := selectorFilterPosFixed r; Codec := Codec r;
     Transport := Transport r; Selector := Selector r; EnableMultiplexed := EnableMultiplexed r;
     CallOptions := CallOptions r; SelectOptions := SelectOptions r;
     shouldErrReportToSelector := shouldErrReportToSelector r; Node := Node r;
     Network := Network r; DisableServiceRouter := DisableServiceRouter r |}.

(** [opts.Filters = v] *)
Definition set_Filters (v : list FilterRef) (r : Options) : Options :=
  {| ServiceName := ServiceName r; endpoint := endpoint r; CalleeMethod := CalleeMethod r;
     MetaData := MetaData r; CallerServiceName := CallerServiceName r;
     SerializationType := SerializationType r; CompressType := CompressType r;
     CurrentSerializationType := CurrentSerializationType r;
     CurrentCompressType := CurrentCompressType r; ReqHead := ReqHead r; RspHead := RspHead r;
     CallType := CallType r; attachment := attachment r; Timeout := Timeout r;
     fixTimeout := fixTimeout r; Filters := v; FilterNames := FilterNames r;
     DisableFilter := DisableFilter r; selectorFilterPosFixed := selectorFilterPosFixed r;
     Codec := Codec r; Transport := Transport r; Selector := Selector r;
     EnableMultiplexed := EnableMultiplexed r; CallOptions := CallOptions r;
     SelectOptions := SelectOptions r; shouldErrReportToSelector := shouldErrReportToSelector r;
     Node := Node r; Network := Network r; DisableServiceRouter := DisableServiceRouter r |}.

(** [opts.FilterNames = v] *)
Definition set_FilterNames (v : list string) (r : Options) : Options :=
  {| ServiceName := ServiceName r; endpoint := endpoint r; CalleeMethod := CalleeMethod r;
     MetaData := MetaData r; CallerServiceName := CallerServiceName r;
     SerializationType := SerializationType r; CompressType := CompressType r;
     CurrentSerializationType := CurrentSerializationType r;
     CurrentCompressType := CurrentCompressType r; ReqHead := ReqHead r; RspHead := RspHead r;
     CallType := CallType r; attachment := attachment r; Timeout := Timeout r;
     fixTimeout := fixTimeout r; Filters := Filters r; FilterNames := v;
     DisableFilter := DisableFilter r; selectorFilterPosFixed := selectorFilterPosFixed r;
     Codec := Codec r; Transport := Transport r; Selector := Selector r;
     EnableMultiplexed := EnableMultiplexed r; CallOptions := CallOptions r;
     SelectOptions := SelectOptions r; shouldErrReportToSelector := shouldErrReportToSelector r;
     Node := Node r; Network := Network r; DisableServiceRouter := DisableServiceRouter r |}.

(** [opts.CallOptions = v] *)
Definition set_CallOptions (v : list transport.CallOption) (r : Options) : Options :=
  {| ServiceName := ServiceName r; endpoint := endpoint r; CalleeMethod := CalleeMethod r;
     MetaData := MetaData r; CallerServiceName := CallerServiceName r;
     SerializationType := SerializationType r; CompressType := CompressType r;
     CurrentSerializationType := CurrentSerializationType r;
     CurrentCompressType := CurrentCompressType r; ReqHead := ReqHead r; RspHead := RspHead r;
     CallType := CallType r; attachment := attachment r; Timeout := Timeout r;
     fixTimeout := fixTimeout r; Filters := Filters r; FilterNames := FilterNames r;
     DisableFilter := DisableFilter r; selectorFilterPosFixed := selectorFilterPosFixed r;
     Codec := Codec r; Transport := Transport r; Selector := Selector r;
     EnableMultiplexed := EnableMultiplexed r; CallOptions := v;
     SelectOptions := SelectOptions r; shouldErrReportToSelector := shouldErrReportToSelector r;
     Node := Node r; Network := Network r; DisableServiceRouter := DisableServiceRouter r |}.

(** [opts.SelectOptions = v] *)
Definition set_SelectOptions (v : list selector.Option) (r : Options) : Options :=
  {| ServiceName := ServiceName r; endpoint := endpoint r; CalleeMethod := CalleeMethod r;
     MetaData := MetaData r; CallerServiceName := CallerServiceName r;
     SerializationType := SerializationType r; CompressType := CompressType r;
     CurrentSerializationType := CurrentSerializationType r;
     CurrentCompressType := CurrentCompressType r; ReqHead := ReqHead r; RspHead := RspHead r;
     CallType := CallType r; attachment := attachment r; Timeout := Timeout r;
     fixTimeout := fixTimeout r; Filters := Filters r; FilterNames := FilterNames r;
     DisableFilter := DisableFilter r; selectorFilterPosFixed := selectorFilterPosFixed r;
     Codec := Codec r; Transport := Transport r; Selector := Selector r;
     EnableMultiplexed := EnableMultiplexed r; CallOptions := CallOptions r; SelectOptions := v;
     shouldErrReportToSelector := shouldErrReportToSelector r; Node := Node r;
     Network := Network r; DisableServiceRouter := DisableServiceRouter r |}.

(** [*opts.Node = v] *)
Definition set_Node (v : option (registry.Node Body)) (r : Options) : Options :=
  {| ServiceName := ServiceName r; endpoint := endpoint r; CalleeMethod := CalleeMethod r;
     MetaData := MetaData r; CallerServiceName := CallerServiceName r;
     SerializationType := SerializationType r; CompressType := CompressType r;
     CurrentSerializationType := CurrentSerializationType r;
     CurrentCompressType := CurrentCompressType r; ReqHead := ReqHead r; RspHead := RspHead r;
     CallType := CallType r; attachment := attachment r; Timeout := Timeout r;
     fixTimeout := fixTimeout r; Filters := Filters r; FilterNames := FilterNames r;
     DisableFilter := DisableFilter r; selectorFilterPosFixed := selectorFilterPosFixed r;
     Codec := Codec r; Transport := Transport r; Selector := Selector r;
     EnableMultiplexed := EnableMultiplexed r; CallOptions := CallOptions r; SelectOptions := SelectOptions r;
     shouldErrReportToSelector := shouldErrReportToSelector r; Node := v;
     Network := Network r; DisableServiceRouter := DisableServiceRouter r |}.

(** Modelled from the spec: [opts.clone()] is declared in another file
    of the package.  Section 4.3: "clone Options"; the copy is a value
    of its own once stored under a fresh address. *)
Definition clone (o : Options) : Options := o.

(** Modelled from the spec: [opts.rebuildSliceCapacity()] is declared in
    another file of the package.  Section 4.3: "re-allocate any shared
    slice capacity so appends do not alias"; lists are values, so
    nothing is left to do. *)
Definition rebuildSliceCapacity (o : Options) : Options := o.

(** [client.Option]: a function that updates the [Options] it is handed. *)
Definition Option : Type := Options -> Options.

(** A call on a collaborator, with its arguments. *)
Inductive Event : Type :=
| EvSelect (endpoint : string) (opts : list selector.Option)
| EvReport (node : registry.Node Body) (cost : Z) (err : errs.error)
| EvMarshal (t : Z) (body : Body)
| EvCompress (t : Z) (buf : bytes)
| EvEncode (body : bytes)
| EvRoundTrip (req : bytes) (opts : list transport.CallOption)
| EvDecode (rsp : bytes)
| EvDecompress (t : Z) (buf : bytes)
| EvUnmarshal (t : Z) (buf : bytes) (rspBody : nat).

(** The state one call runs in. *)
Record World : Type := mkWorld {
  wMsg : codec.Msg Body;           (* the message of the call *)
  wOptions : nat -> Options;       (* the [*Options] in existence *)
  wFresh : nat;                    (* the next unused address *)
  wBodies : nat -> Body;           (* the objects response bodies point to *)
  wTrace : list Event;             (* calls on collaborators, oldest first *)
  wExt : Ext                       (* the world outside the process *)
}.

(** Code that runs in a [World] and returns an [A]. *)
Definition M (A : Type) : Type := World -> A * World.

Definition ret {A : Type} (a : A) : M A := fun w => (a, w).

Definition bind {A B : Type} (m : M A) (k : A -> M B) : M B :=
  fun w => let (a, w') := m w in k a w'.

Definition when (b : bool) (m : M unit) : M unit := if b then m else ret tt.

(** [codec.Message(ctx)] and the setters of the message. *)
Definition getMsg : M (codec.Msg Body) := fun w => (wMsg w, w).

Definition putMsg (m : codec.Msg Body) : M unit := fun w =>
  (tt, {| wMsg := m; wOptions := wOptions w; wFresh := wFresh w;
          wBodies := wBodies w; wTrace := wTrace w; wExt := wExt w |}).

Definition modifyMsg (f : codec.Msg Body -> codec.Msg Body) : M unit := fun w =>
  putMsg (f (wMsg w)) w.

(** Reading and writing through a [*Options]. *)
Definition deref (p : nat) : M Options := fun w => (wOptions w p, w).

Definition store (p : nat) (o : Options) : M unit := fun w =>
  (tt, {| wMsg := wMsg w;
          wOptions := fun q => if Nat.eqb q p then o else wOptions w q;
          wFresh := wFresh w; wBodies := wBodies w; wTrace := wTrace w;
          wExt := wExt w |}).

Definition modifyOptions (p : nat) (f : Options -> Options) : M unit := fun w =>
  store p (f (wOptions w p)) w.

(** A new [Options] object. *)
Definition newOptions (o : Options) : M nat := fun w =>
  (wFresh w,
   {| wMsg := wMsg w;
      wOptions := fun q => if Nat.eqb q (wFresh w) then o else wOptions w q;
      wFresh := S (wFresh w); wBodies := wBodies w; wTrace := wTrace w;
      wExt := wExt w |}).

Definition putBody (r : nat) (b : Body) : M unit := fun w =>
  (tt, {| wMsg := wMsg w; wOptions := wOptions w; wFresh := wFresh w;
          wBodies := fun q => if Nat.eqb q r then b else wBodies w q;
          wTrace := wTrace w; wExt := wExt w |}).

(** Recording a call on a collaborator. *)
Definition emit (ev : Event) : M unit := fun w =>
  (tt, {| wMsg := wMsg w; wOptions := wOptions w; wFresh := wFresh w;
          wBodies := wBodies w; wTrace := wTrace w ++ [ev]; wExt := wExt w |}).

(** A step of the outside world. *)
Definition extern {A : Type} (f : Ext -> A * Ext) : M A := fun w =>
  let (a, x) := f (wExt w) in
  (a, {| wMsg := wMsg w; wOptions := wOptions w; wFresh := wFresh w;
         wBodies := wBodies w; wTrace := wTrace w; wExt := x |}).

(** [filter.ClientHandleFunc] and [filter.ClientFilter]; the response
    body is the address of the object to fill. *)
Definition ClientHandleFunc : Type := context.Ctx -> Body -> nat -> M errs.error.
Definition ClientFilter : Type :=
  context.Ctx -> Body -> nat -> ClientHandleFunc -> M errs.error.

(** What [client.go] uses and does not define. *)
Record Env : Type := mkEnv {
  (* clock and cancellation *)
  time_Now : Ext -> Z * Ext;
  ctx_Err : context.Ctx -> Ext -> context.CtxErr;
  (* package net; a resolver returns a nil pointer with its error *)
  SplitHostPort : string -> option (string * string);
  ParseIP : string -> option bytes;
  ResolveTCPAddr : string -> string -> Ext -> option net.TCPAddr * Ext;
  ResolveUDPAddr : string -> string -> Ext -> option net.UDPAddr * Ext;
  ResolveUnixAddr : string -> string -> Ext -> option net.UnixAddr * Ext;
  Addr_String : net.Addr -> string;
  (* formatting *)
  Error_string : errs.value -> string;      (* err.Error() *)
  Duration_string : Z -> string;            (* %s of a time.Duration *)
  Node_format : registry.Node Body -> string; (* %+v of a node *)
  (* serializers and compressors *)
  SerializationTypePB : Z;
  IsValidCompressType : Z -> bool;
  CompressTypeNoop : Z;
  Marshal : Z -> Body -> errs.result bytes;
  Unmarshal : Z -> bytes -> Body -> errs.error * Body;
  Compress : Z -> bytes -> errs.result bytes;
  Decompress : Z -> bytes -> errs.result bytes;
  (* the rest of package client *)
  getOptionsByCalleeAndUserOptions : string -> list Option -> Options;
  parseTarget : Options -> errs.error * Options;
  LoadNodeConfig : registry.Node Body -> Options -> Options;
  Node_set : registry.Node Body -> string -> Z -> Options -> Options;
  findFirstNonEmpty : string -> string -> string;
  DefaultSelectorFilterName : string;
  userFilter : nat -> ClientFilter
}.

End Types.

Arguments Options : clear implicits.
Arguments Option : clear implicits.
Arguments Event : clear implicits.
Arguments World : clear implicits.
Arguments M : clear implicits.
Arguments ClientHandleFunc : clear implicits.
Arguments ClientFilter : clear implicits.
Arguments Env : clear implicits.

Declare Scope client_scope.
Delimit Scope client_scope with client.
Notation "x <- m ;; k" := (bind m (fun x => k))
  (at level 61, m at next level, right associativity) : client_scope.
Notation "m ;; k" := (bind m (fun _ => k))
  (at level 61, right associativity) : client_scope.
Open Scope client_scope.

(** *** The functions of [client.go] *)
Section Program.
Context {Body Ext : Type}.
Variable env : Env Body Ext.

Local Abbreviation Options := (Options Body Ext).
Local Abbreviation Node := (registry.Node Body).
Local Abbreviation Msg := (codec.Msg Body).
Local Abbreviation Ctx := context.Ctx.
Local Abbreviation M := (M Body Ext).

Definition nonEmpty (s : string) : bool := negb (String.eqb s "").

Definition OptionsFromContext (ctx : Ctx) : nat := context.ctxOptions ctx.
Definition IsOptionsImmutable (ctx : Ctx) : bool := context.ctxImmutable ctx.

Definition IsValidSerializationType (t : Z) : bool :=
  icodec.IsValidSerializationType (SerializationTypePB env) t.

(** [time.Now()]. *)
Definition now : M Z := extern (time_Now env).

(** **** [getServiceInfoOptions], [getOptions] *)
Definition getServiceInfoOptions (msg : Msg) : list selector.Option :=
  if nonEmpty (codec.Namespace msg) then
    [ selector.WithSourceNamespace (codec.Namespace msg);
      selector.WithSourceServiceName (codec.CallerServiceName msg);
      selector.WithSourceEnvName (codec.EnvName msg);
      selector.WithEnvTransfer (codec.EnvTransfer msg);
      selector.WithSourceSetName (codec.SetName msg) ]
  else [].

(** The [*Options] it returns is the fresh object [clone] made; it is
    given its address by the caller. *)
Definition getOptions (msg : Msg) (opt : list (Option Body Ext)) : errs.result Options :=
  let opts := clone (getOptionsByCalleeAndUserOptions env (codec.CalleeServiceName msg) opt) in
  let opts := set_SelectOptions (SelectOptions opts ++ getServiceInfoOptions msg) opts in
  let opts := fold_left (fun acc o => o acc) opt opts in
  match parseTarget env opts with
  | (Some err, _) => inr (errs.NewFrameError errs.RetClientRouteErr (Error_string env err))
  | (None, opts) => inl opts
  end.

(** **** [getMetaData], [setAttachment], [updateMsg] *)
Definition getMetaData (msg : Msg) (opts : Options) : codec.MetaData :=
  let md := match codec.ClientMetaData msg with Some md => md | None => [] end in
  fold_left (fun acc kv => codec.MetaData_set (fst kv) (snd kv) acc) (MetaData opts) md.

Definition setAttachment (attm : Body) : M unit :=
  msg <- getMsg ;;
  let cm := match codec.CommonMeta msg with Some cm => cm | None => [] end in
  modifyMsg (codec.WithCommonMeta (Some (codec.CommonMeta_set codec.ClientAttachmentKey attm cm))).

Definition updateMsg (p : nat) : M unit :=
  opts <- deref p ;;
  when (nonEmpty (ServiceName opts))
       (modifyMsg (codec.WithCalleeServiceName (ServiceName opts))) ;;
  when (String.eqb (endpoint opts) "")
       (msg <- getMsg ;; modifyOptions p (set_endpoint (codec.CalleeServiceName msg))) ;;
  when (nonEmpty (CalleeMethod opts))
       (modifyMsg (codec.WithCalleeMethod (CalleeMethod opts))) ;;
  when (negb (Nat.eqb (List.length (MetaData opts)) 0))
       (msg <- getMsg ;; modifyMsg (codec.WithClientMetaData (Some (getMetaData msg opts)))) ;;
  when (nonEmpty (CallerServiceName opts))
       (modifyMsg (codec.WithCallerServiceName (CallerServiceName opts))) ;;
  when (IsValidSerializationType (SerializationType opts))
       (modifyMsg (codec.WithSerializationType (SerializationType opts))) ;;
  when (IsValidCompressType env (CompressType opts)
        && negb (CompressType opts =? CompressTypeNoop env))
       (modifyMsg (codec.WithCompressType (CompressType opts))) ;;
  match ReqHead opts with
  | Some h => modifyMsg (codec.WithClientReqHead (Some h))
  | None => ret tt
  end ;;
  match RspHead opts with
  | Some h => modifyMsg (codec.WithClientRspHead (Some h))
  | None => ret tt
  end ;;
  modifyMsg (codec.WithCallType (CallType opts)) ;;
  match attachment opts with
  | Some attm => setAttachment attm
  | None => ret tt
  end.

(** **** [ensureMsgRemoteAddr] *)
Definition isTCP (network : string) : bool :=
  existsb (String.eqb network) ["tcp"; "tcp4"; "tcp6"].
Definition isUDP (network : string) : bool :=
  existsb (String.eqb network) ["udp"; "udp4"; "udp6"].

(** The first [switch]: for an IP network, whether the address fails to
    split or its host is no literal IP. *)
Definition notLiteralIP (address : string) : bool :=
  match SplitHostPort env address with
  | None => true
  | Some (host, _) => match ParseIP env host with None => true | Some _ => false end
  end.

(** Each resolver returns a pointer of its own type, nil on error; the
    assignment to [addr], a [net.Addr], wraps that pointer. *)
Definition ensureMsgRemoteAddr (network address : string) : M unit :=
  msg <- getMsg ;;
  match codec.RemoteAddr msg with
  | Some _ => ret tt
  | None =>
      if (isTCP network || isUDP network) && notLiteralIP address then ret tt
      else
        addr <- (if isTCP network then
                   a <- extern (ResolveTCPAddr env network address) ;; ret (net.TCP a)
                 else if isUDP network then
                   a <- extern (ResolveUDPAddr env network address) ;; ret (net.UDP a)
                 else if String.eqb network "unix" then
                   a <- extern (ResolveUnixAddr env network address) ;; ret (net.Unix a)
                 else
                   a <- extern (ResolveTCPAddr env "tcp4" address) ;; ret (net.TCP a)) ;;
        modifyMsg (codec.WithRemoteAddr (Some addr))
  end.

(** **** [getNode], [selectNode] *)
Definition getNode (p : nat) : M (errs.result Node) :=
  opts <- deref p ;;
  emit (EvSelect (endpoint opts) (SelectOptions opts)) ;;
  r <- extern (selector.Select (Selector opts) (endpoint opts) (SelectOptions opts)) ;;
  match r with
  | inr err =>
      ret (inr (errs.NewFrameError errs.RetClientRouteErr
                  ("client Select: " ++ Error_string env err)%string))
  | inl node =>
      if String.eqb (registry.Address node) "" then
        ret (inr (errs.NewFrameError errs.RetClientRouteErr
                    ("client Select: node address empty:" ++ Node_format env node)%string))
      else ret (inl node)
  end.

Definition selectNode (ctx : Ctx) (p : nat) : M (errs.result Node) :=
  modifyOptions p (fun o => set_SelectOptions (SelectOptions o ++ [selector.WithContext ctx]) o) ;;
  r <- getNode p ;;
  match r with
  | inr err => ret (inr err)
  | inl node =>
      modifyOptions p (LoadNodeConfig env node) ;;
      modifyMsg (codec.WithCalleeContainerName (registry.ContainerName node)) ;;
      modifyMsg (codec.WithCalleeSetName (registry.SetName node)) ;;
      msg <- getMsg ;;
      when (String.eqb (codec.EnvTransfer msg) "")
           (modifyMsg (codec.WithEnvTransfer (registry.EnvKey node))) ;;
      opts <- deref p ;;
      when (DisableServiceRouter opts) (modifyMsg (codec.WithEnvTransfer "")) ;;
      e <- extern (fun x => (ctx_Err env ctx x, x)) ;;
      match e with
      | context.Canceled =>
          ret (inr (errs.NewFrameError errs.RetClientCanceled
                      ("selector canceled after Select: " ++ context.CtxErr_Error e)%string))
      | context.DeadlineExceeded =>
          ret (inr (errs.NewFrameError errs.RetClientTimeout
                      ("selector timeout after Select: " ++ context.CtxErr_Error e)%string))
      | context.NoErr => ret (inl node)
      end
  end.

(** **** [selectorFilter] *)

(** The condition of the first branch of the report: [err] is a
    [*errs.Error] of type framework whose code is one of the three. *)
Definition transportFailure (err : errs.error) : option errs.Error :=
  match err with
  | Some (errs.Ptr e) =>
      if errs.ErrorType_eqb (errs.Type_ e) errs.ErrorTypeFramework
         && (errs.RetCode_eqb (errs.Code e) errs.RetClientConnectFail
             || errs.RetCode_eqb (errs.Code e) errs.RetClientTimeout
             || errs.RetCode_eqb (errs.Code e) errs.RetClientNetErr)
      then Some e else None
  | _ => None
  end.

(** [opts.Selector.Report(node, cost, err)]. *)
Definition report (sel : selector.Selector Body Ext) (node : Node) (cost : Z)
  (err : errs.error) : M unit :=
  emit (EvReport node cost err) ;;
  extern (fun x => (tt, selector.Report sel node cost err x)).

(** [e.Msg = fmt.Sprintf("%s, cost:%s", e.Msg, cost)]: the error is
    changed in place, so what is reported and what is returned carry the
    new text. *)
Definition withCost (e : errs.Error) (cost : Z) : errs.Error :=
  {| errs.Type_ := errs.Type_ e; errs.Code := errs.Code e;
     errs.Msg := (errs.Msg e ++ ", cost:" ++ Duration_string env cost)%string |}.

(** Lines 392-401: the context and the [opts] the filter goes on with;
    under the immutable marker, a clone of its own. *)
Definition ownOptions (ctx : Ctx) : M (Ctx * nat) :=
  let p := OptionsFromContext ctx in
  if IsOptionsImmutable ctx then
    opts <- deref p ;;
    q <- newOptions (rebuildSliceCapacity (clone opts)) ;;
    ret (context.contextWithOptions ctx q, q)
  else ret (ctx, p).

Definition selectorFilter : ClientFilter Body Ext := fun ctx req rsp next =>
  cp <- ownOptions ctx ;;
  let ctx := fst cp in
  let p := snd cp in
  r <- selectNode ctx p ;;
  match r with
  | inr err =>
      opts <- deref (OptionsFromContext ctx) ;;
      ret (fixTimeout opts (Some err))
  | inl node =>
      opts <- deref p ;;
      ensureMsgRemoteAddr (findFirstNonEmpty env (registry.Network node) (Network opts))
                          (registry.Address node) ;;
      begin <- now ;;
      err <- next ctx req rsp ;;
      finish <- now ;;
      let cost := time.Sub finish begin in
      opts <- deref p ;;
      err <- match transportFailure err with
             | Some e =>
                 let err := Some (errs.Ptr (withCost e cost)) in
                 report (Selector opts) node cost err ;; ret err
             | None =>
                 if shouldErrReportToSelector opts err then
                   report (Selector opts) node cost err ;; ret err
                 else
                   report (Selector opts) node cost None ;; ret err
             end ;;
      msg <- getMsg ;;
      match codec.RemoteAddr msg with
      | Some addr => modifyOptions p (Node_set env node (Addr_String env addr) cost)
      | None => modifyOptions p (Node_set env node (registry.Address node) cost)
      end ;;
      ret err
  end.

(** **** [serializeAndCompress], [prepareRequestBuf] *)
Definition serializeAndCompress (reqBody : Body) (p : nat) : M (errs.result bytes) :=
  msg <- getMsg ;;
  opts <- deref p ;;
  let serializationType := codec.SerializationType msg in
  let serializationType :=
    if IsValidSerializationType (CurrentSerializationType opts)
    then CurrentSerializationType opts else serializationType in
  r <- (if IsValidSerializationType serializationType then
          emit (EvMarshal serializationType reqBody) ;;
          ret (Marshal env serializationType reqBody)
        else ret (inl [])) ;;
  match r with
  | inr err =>
      ret (inr (errs.NewFrameError errs.RetClientEncodeFail
                  ("client codec Marshal: " ++ Error_string env err)%string))
  | inl reqBodyBuf =>
      let compressType := codec.CompressType msg in
      let compressType :=
        if IsValidCompressType env (CurrentCompressType opts)
        then CurrentCompressType opts else compressType in
      r <- (if IsValidCompressType env compressType
               && negb (compressType =? CompressTypeNoop env) then
              emit (EvCompress compressType reqBodyBuf) ;;
              ret (Compress env compressType reqBodyBuf)
            else ret (inl reqBodyBuf)) ;;
      match r with
      | inr err =>
          ret (inr (errs.NewFrameError errs.RetClientEncodeFail
                      ("client codec Compress: " ++ Error_string env err)%string))
      | inl reqBodyBuf => ret (inl reqBodyBuf)
      end
  end.

(** A call on the codec, which may rewrite the message. *)
Definition onMsg (f : Msg -> bytes -> errs.result bytes * Msg) (buf : bytes)
  : M (errs.result bytes) :=
  msg <- getMsg ;;
  let (r, msg') := f msg buf in
  putMsg msg' ;; ret r.

(** [c] is [opts.Codec], which [callFunc] has found not to be nil. *)
Definition prepareRequestBuf (c : codec.Codec Body) (reqBody : Body) (p : nat)
  : M (errs.result bytes) :=
  r <- serializeAndCompress reqBody p ;;
  match r with
  | inr err => ret (inr err)
  | inl reqBodyBuf =>
      emit (EvEncode reqBodyBuf) ;;
      r <- onMsg (codec.Encode c) reqBodyBuf ;;
      match r with
      | inr err =>
          ret (inr (errs.NewFrameError errs.RetClientEncodeFail
                      ("client codec Encode: " ++ Error_string env err)%string))
      | inl reqBuf => ret (inl reqBuf)
      end
  end.

(** **** [processResponseBuf] *)
Definition unmarshal (t : Z) (buf : bytes) (rspBody : nat) : M errs.error := fun w =>
  let (err, b) := Unmarshal env t buf (wBodies w rspBody) in
  (err, snd (putBody rspBody b w)).

Definition processResponseBuf (rspBody : nat) (rspBodyBuf : bytes) (p : nat) : M errs.error :=
  msg <- getMsg ;;
  opts <- deref p ;;
  match codec.ClientRspErr msg with
  | Some e => ret (Some e)
  | None =>
      if Nat.eqb (List.length rspBodyBuf) 0 then ret None
      else
        let compressType := codec.CompressType msg in
        let compressType :=
          if IsValidCompressType env (CurrentCompressType opts)
          then CurrentCompressType opts else compressType in
        r <- (if IsValidCompressType env compressType
                 && negb (compressType =? CompressTypeNoop env) then
                emit (EvDecompress compressType rspBodyBuf) ;;
                ret (Decompress env compressType rspBodyBuf)
              else ret (inl rspBodyBuf)) ;;
        match r with
        | inr err =>
            ret (Some (errs.NewFrameError errs.RetClientDecodeFail
                         ("client codec Decompress: " ++ Error_string env err)%string))
        | inl rspBodyBuf =>
            let serializationType := codec.SerializationType msg in
            let serializationType :=
              if IsValidSerializationType (CurrentSerializationType opts)
              then CurrentSerializationType opts else serializationType in
            err <- (if IsValidSerializationType serializationType then
                      emit (EvUnmarshal serializationType rspBodyBuf rspBody) ;;
                      unmarshal serializationType rspBodyBuf rspBody
                    else ret None) ;;
            match err with
            | Some err =>
                ret (Some (errs.NewFrameError errs.RetClientDecodeFail
                             ("client codec Unmarshal: " ++ Error_string env err)%string))
            | None => ret None
            end
        end
  end.

(** **** [callFunc] *)
Definition roundTrip (t : transport.ClientTransport Body Ext) (ctx : Ctx) (reqBuf : bytes)
  (callOpts : list transport.CallOption) : M (errs.result bytes) := fun w =>
  let '(r, msg', x) := transport.RoundTrip t ctx reqBuf callOpts (wMsg w) (wExt w) in
  (r, {| wMsg := msg'; wOptions := wOptions w; wFresh := wFresh w;
         wBodies := wBodies w; wTrace := wTrace w; wExt := x |}).

(** The body of [callFunc], up to its [return]. *)
Definition call (ctx : Ctx) (reqBody : Body) (rspBody : nat) (p : nat) : M errs.error :=
  opts <- deref p ;;
  match Codec opts with
  | None => ret (Some (errs.NewFrameError errs.RetClientEncodeFail "client: codec empty"))
  | Some c =>
      r <- prepareRequestBuf c reqBody p ;;
      match r with
      | inr err => ret (Some err)
      | inl reqBuf =>
          opts <- deref p ;;
          when (EnableMultiplexed opts)
               (modifyOptions p (fun o =>
                  set_CallOptions
                    (CallOptions o ++ [transport.WithMsg; transport.WithMultiplexed true]) o)) ;;
          opts <- deref p ;;
          emit (EvRoundTrip reqBuf (CallOptions opts)) ;;
          r <- roundTrip (Transport opts) ctx reqBuf (CallOptions opts) ;;
          match r with
          | inr errs.ClientNoResponse => ret None
          | inr err => ret (Some err)
          | inl rspBuf =>
              emit (EvDecode rspBuf) ;;
              r <- onMsg (codec.Decode c) rspBuf ;;
              match r with
              | inr err =>
                  ret (Some (errs.NewFrameError errs.RetClientDecodeFail
                               ("client codec Decode: " ++ Error_string env err)%string))
              | inl rspBodyBuf => processResponseBuf rspBody rspBodyBuf p
              end
          end
      end
  end.

(** [callFunc]: the deferred function runs on the way out and replaces
    the returned error by [opts.fixTimeout(err)]. *)
Definition callFunc : ClientHandleFunc Body Ext := fun ctx reqBody rspBody =>
  let p := OptionsFromContext ctx in
  err <- call ctx reqBody rspBody p ;;
  opts <- deref p ;;
  ret (fixTimeout opts err).

(** **** [fixFilters] and the chain *)
Definition fixFilters (p : nat) : M (list FilterRef) :=
  opts <- deref p ;;
  if DisableFilter opts || Nat.eqb (List.length (Filters opts)) 0 then
    store p (set_FilterNames (FilterNames opts ++ [DefaultSelectorFilterName env]) opts) ;;
    ret [SelectorFilterRef]
  else
    when (negb (selectorFilterPosFixed opts))
         (store p (set_FilterNames (FilterNames opts ++ [DefaultSelectorFilterName env])
                     (set_Filters (Filters opts ++ [SelectorFilterRef]) opts))) ;;
    opts <- deref p ;;
    ret (Filters opts).

(** The function a chain entry stands for. *)
Definition filterOf (r : FilterRef) : ClientFilter Body Ext :=
  match r with
  | SelectorFilterRef => selectorFilter
  | UserFilterRef i => userFilter env i
  end.

(** Modelled from the spec: [filter.ClientChain.Filter] belongs to
    package [filter], whose source is not part of this development.
    Section 4.2: "Executes interceptors in order, each receiving a next
    continuation"; "next when called executes the remaining suffix". *)
Fixpoint ClientChain_Filter (c : list (ClientFilter Body Ext)) (ctx : Ctx) (req : Body)
  (rsp : nat) (next : ClientHandleFunc Body Ext) : M errs.error :=
  match c with
  | [] => next ctx req rsp
  | f :: rest =>
      f ctx req rsp (fun ctx' req' rsp' => ClientChain_Filter rest ctx' req' rsp' next)
  end.

(** **** [Invoke] *)

(** Lines 87-94: the child context and the request timeout. *)
Definition withRequestTimeout (ctx : Ctx) (p : nat) : M Ctx :=
  opts <- deref p ;;
  ctx <- (if 0 <? Timeout opts then
            t <- now ;; ret (context.WithTimeout ctx (Timeout opts) t)
          else ret ctx) ;;
  match context.Deadline ctx with
  | Some deadline =>
      t <- now ;; modifyMsg (codec.WithRequestTimeout (time.Sub deadline t))
  | None => ret tt
  end ;;
  ret ctx.

(** Lines 95-97; [time.Until] reads the clock only when the deadline is
    there and the timeout is positive. *)
Definition markFullLinkTimeout (fullLinkDeadline : option Z) (p : nat) : M unit :=
  opts <- deref p ;;
  match fullLinkDeadline with
  | None => ret tt
  | Some d =>
      if Timeout opts <=? 0 then modifyOptions p (set_fixTimeout mayConvert2FullLinkTimeout)
      else
        t <- now ;;
        when (time.Sub d t <? Timeout opts)
             (modifyOptions p (set_fixTimeout mayConvert2FullLinkTimeout))
  end.

(** [codec.EnsureMessage] yields the message of the [World]. *)
Definition Invoke (ctx : Ctx) (reqBody : Body) (rspBody : nat) (opt : list (Option Body Ext))
  : M errs.error :=
  msg <- getMsg ;;
  match getOptions msg opt with
  | inr err => ret (Some err)
  | inl opts =>
      p <- newOptions opts ;;
      updateMsg p ;;
      let fullLinkDeadline := context.Deadline ctx in
      ctx <- withRequestTimeout ctx p ;;
      markFullLinkTimeout fullLinkDeadline p ;;
      filters <- fixFilters p ;;
      ClientChain_Filter (map filterOf filters) (context.contextWithOptions ctx p)
                         reqBody rspBody callFunc
  end.

(** **** Outcomes, for the statements below *)

(** The options as [callFunc] leaves them before the round trip. *)
Definition multiplexed (o : Options) : Options :=
  if EnableMultiplexed o
  then set_CallOptions (CallOptions o ++ [transport.WithMsg; transport.WithMultiplexed true]) o
  else o.

(** What [selectorFilter] reports for the error [err] of [next]. *)
Definition reportedError (opts : Options) (err : errs.error) (cost : Z) : errs.error :=
  match transportFailure err with
  | Some e => Some (errs.Ptr (withCost e cost))
  | None => if shouldErrReportToSelector opts err then err else None
  end.

(** What [selectorFilter] returns for the error [err] of [next]. *)
Definition returnedError (err : errs.error) (cost : Z) : errs.error :=
  match transportFailure err with
  | Some e => Some (errs.Ptr (withCost e cost))
  | None => err
  end.

(** [Invoke] up to line 94, for the options [getOptions] returned ... *)
Definition beforeFullLinkCheck (ctx : Ctx) (opts : Options) : M Ctx :=
  p <- newOptions opts ;; (updateMsg p ;; withRequestTimeout ctx p).

(** ... and from line 99 on. *)
Definition afterFullLinkCheck (ctx : Ctx) (reqBody : Body) (rspBody p : nat) : M errs.error :=
  filters <- fixFilters p ;;
  ClientChain_Filter (map filterOf filters) (context.contextWithOptions ctx p)
                     reqBody rspBody callFunc.

(** What the request path makes of the outcome of one of its stages. *)
Definition encodeFail (stage : string) (r : errs.result bytes) : errs.result bytes :=
  match r with
  | inl buf => inl buf
  | inr err =>
      inr (errs.NewFrameError errs.RetClientEncodeFail (stage ++ Error_string env err)%string)
  end.

End Program.

(** *** Reading traces and adapters *)
Section Observations.
Context {Body Ext : Type}.

Definition isReport (ev : Event Body) : bool :=
  match ev with EvReport _ _ _ => true | _ => false end.

Definition isMarshal (ev : Event Body) : bool :=
  match ev with EvMarshal _ _ => true | _ => false end.

(** The two adapters the package ever stores in [Options.fixTimeout]. *)
Definition isTimeoutAdapter (f : errs.error -> errs.error) : Prop :=
  f = defaultFixTimeout \/ f = mayConvert2FullLinkTimeout.

(** [err] is a [*errs.Error] carrying code [c]. *)
Definition hasCode (c : errs.RetCode) (err : errs.error) : Prop :=
  exists e, err = Some (errs.Ptr e) /\ errs.Code e = c.

(** [err] is a framework error of one of the three kinds the selector
    filter reports as failures. *)
Definition isTransportFailure (err : errs.error) : Prop :=
  exists e, err = Some (errs.Ptr e) /\ errs.Type_ e = errs.ErrorTypeFramework /\
            (errs.Code e = errs.RetClientConnectFail \/
             errs.Code e = errs.RetClientTimeout \/
             errs.Code e = errs.RetClientNetErr).

(** The computation [m] leaves [field] of every [Options] as it was. *)
Definition keepsField {X A : Type} (field : Options Body Ext -> X) (m : M Body Ext A)
  : Prop :=
  forall w q, field (wOptions (snd (m w)) q) = field (wOptions w q).

End Observations.

(** *** A small concrete world, on which the model runs *)
Module Sample.

(** Bodies are strings; the outside world is a clock in nanoseconds. *)
Definition Body : Type := string.
Definition Ext : Type := Z.

Definition node (address : string) : registry.Node Body :=
  {| registry.ServiceName := "svcA"; registry.ContainerName := "c1";
     registry.Address := address; registry.Network := "tcp"; registry.Protocol := "trpc";
     registry.SetName := ""; registry.Weight := 100; registry.CostTime := 0;
     registry.EnvKey := ""; registry.Metadata := [] |}.

(** A selector that answers with the node at [address] after 1000ns, or
    fails when there is none. *)
Definition selectorOf (address : option string) : selector.Selector Body Ext :=
  {| selector.Select := fun _ _ x =>
       match address with
       | Some a => (inl (node a), x + 1000)
       | None => (inr (errs.Other "no instance"), x + 1000)
       end;
     selector.Report := fun _ _ _ x => x |}.

(** A transport that answers [answer] after 5000ns. *)
Definition transportOf (answer : bytes -> errs.result bytes)
  : transport.ClientTransport Body Ext :=
  {| transport.RoundTrip := fun _ req _ msg x => (answer req, msg, x + 5000) |}.

Definition echo : transport.ClientTransport Body Ext := transportOf (fun req => inl req).
Definition sendOnly : transport.ClientTransport Body Ext :=
  transportOf (fun _ => inr errs.ErrClientNoResponse).
Definition unreachable : transport.ClientTransport Body Ext :=
  transportOf (fun _ => inr (errs.NewFrameError errs.RetClientNetErr "connection reset")).

(** A codec whose frames are the bodies; its [Decode] leaves [rspErr] in
    the message. *)
Definition codecOf (rspErr : errs.error) : codec.Codec Body :=
  {| codec.Encode := fun msg buf => (inl buf, msg);
     codec.Decode := fun msg buf => (inl buf, codec.WithClientRspErr rspErr msg) |}.

Definition businessError : errs.value :=
  errs.Ptr {| errs.Type_ := errs.ErrorTypeBusiness; errs.Code := errs.RetOther 10001;
              errs.Msg := "no such user" |}.

Definition timeoutError : errs.value :=
  errs.NewFrameError errs.RetClientTimeout "interceptor gave up".

(** Options of a call: what the statements below vary is a parameter. *)
Definition optionsWith (timeout : Z) (adapter : errs.error -> errs.error)
  (filters : list FilterRef) (pinned disabled : bool)
  (c : option (codec.Codec Body)) (t : transport.ClientTransport Body Ext)
  (s : selector.Selector Body Ext) (reports : errs.error -> bool)
  (serialization compress : Z) : Options Body Ext :=
  {| ServiceName := ""; endpoint := "svcA"; CalleeMethod := ""; MetaData := [];
     CallerServiceName := ""; SerializationType := 2; CompressType := 0;
     CurrentSerializationType := serialization; CurrentCompressType := compress;
     ReqHead := None; RspHead := None; CallType := 0; attachment := None;
     Timeout := timeout; fixTimeout := adapter;
     Filters := filters; FilterNames := []; DisableFilter := disabled;
     selectorFilterPosFixed := pinned;
     Codec := c; Transport := t; Selector := s;
     EnableMultiplexed := false; CallOptions := []; SelectOptions := [];
     shouldErrReportToSelector := reports; Node := None; Network := "";
     DisableServiceRouter := false |}.

(** No timeout, no interceptor, the codec that leaves no response error,
    the echo transport, a selector that knows the address. *)
Definition options : Options Body Ext :=
  optionsWith 0 defaultFixTimeout [] false false (Some (codecOf None)) echo
              (selectorOf (Some "10.0.0.1:8000")) (fun _ => false) (-1) (-1).

(** The same with one thing changed. *)
Definition withFilters (filters : list FilterRef) (pinned : bool) : Options Body Ext :=
  optionsWith 0 defaultFixTimeout filters pinned false (Some (codecOf None)) echo
              (selectorOf (Some "10.0.0.1:8000")) (fun _ => false) (-1) (-1).

Definition withCodec (c : codec.Codec Body) : Options Body Ext :=
  optionsWith 0 defaultFixTimeout [] false false (Some c) echo
              (selectorOf (Some "10.0.0.1:8000")) (fun _ => false) (-1) (-1).

Definition withTransport (t : transport.ClientTransport Body Ext) : Options Body Ext :=
  optionsWith 0 defaultFixTimeout [] false false (Some (codecOf None)) t
              (selectorOf (Some "10.0.0.1:8000")) (fun _ => false) (-1) (-1).

Definition withSelector (s : selector.Selector Body Ext) : Options Body Ext :=
  optionsWith 0 defaultFixTimeout [] false false (Some (codecOf None)) echo s
              (fun _ => false) (-1) (-1).

Definition withReports (reports : errs.error -> bool) : Options Body Ext :=
  optionsWith 0 defaultFixTimeout [] false false (Some (codecOf None)) echo
              (selectorOf (Some "10.0.0.1:8000")) reports (-1) (-1).

Definition withCompress (compress : Z) : Options Body Ext :=
  optionsWith 0 defaultFixTimeout [] false false (Some (codecOf None)) echo
              (selectorOf (Some "10.0.0.1:8000")) (fun _ => false) (-1) compress.

Definition withTimeout (timeout : Z) : Options Body Ext :=
  optionsWith timeout defaultFixTimeout [] false false (Some (codecOf None)) echo
              (selectorOf (Some "10.0.0.1:8000")) (fun _ => false) (-1) (-1).

Definition messageWith (serialization compress : Z) : codec.Msg Body :=
  {| codec.CallerServiceName := "caller"; codec.CalleeServiceName := "svcA";
     codec.CalleeMethod := "Get"; codec.CalleeContainerName := "";
     codec.CalleeSetName := ""; codec.Namespace := ""; codec.EnvName := "";
     codec.EnvTransfer := ""; codec.SetName := "";
     codec.SerializationType := serialization; codec.CompressType := compress;
     codec.RequestTimeout := 0; codec.RemoteAddr := None;
     codec.ClientReqHead := None; codec.ClientRspHead := None; codec.CommonMeta := None;
     codec.ClientMetaData := None; codec.CallType := 0; codec.ClientRspErr := None |}.

(** Serialization type 2, no compression. *)
Definition message : codec.Msg Body := messageWith 2 0.

Definition ip (a b c d : Byte.byte) : bytes := [a; b; c; d].

(** The environment: a clock that moves 1ns at each reading, a resolver
    that knows two literal addresses and finds the port of the second
    out of range, serializers that copy the text, a compressor that
    puts one byte in front.  Interceptor 0 returns a timeout of its own
    without calling [next]; the others pass the call on. *)
Definition env (base : Options Body Ext) : Env Body Ext :=
  {| time_Now := fun x => (x, x + 1);
     ctx_Err := fun ctx x =>
       match context.Deadline ctx with
       | Some d => if d <=? x then context.DeadlineExceeded else context.NoErr
       | None => context.NoErr
       end;
     SplitHostPort := fun a =>
       if String.eqb a "10.0.0.1:8000" then Some ("10.0.0.1", "8000")
       else if String.eqb a "1.2.3.4:99999" then Some ("1.2.3.4", "99999")
       else None;
     ParseIP := fun h =>
       if String.eqb h "10.0.0.1" then Some (ip Byte.x0a Byte.x00 Byte.x00 Byte.x01)
       else if String.eqb h "1.2.3.4" then Some (ip Byte.x01 Byte.x02 Byte.x03 Byte.x04)
       else None;
     ResolveTCPAddr := fun _ a x =>
       if String.eqb a "10.0.0.1:8000"
       then (Some {| net.tcpIP := ip Byte.x0a Byte.x00 Byte.x00 Byte.x01;
                     net.tcpPort := 8000; net.tcpZone := "" |}, x)
       else (None, x);
     ResolveUDPAddr := fun _ a x =>
       if String.eqb a "10.0.0.1:8000"
       then (Some {| net.udpIP := ip Byte.x0a Byte.x00 Byte.x00 Byte.x01;
                     net.udpPort := 8000; net.udpZone := "" |}, x)
       else (None, x);
     ResolveUnixAddr := fun n a x => (Some {| net.unixName := a; net.unixNet := n |}, x);
     Addr_String := fun a =>
       match a with
       | net.TCP (Some _) | net.UDP (Some _) => "10.0.0.1:8000"
       | net.Unix (Some u) => net.unixName u
       | net.OtherAddr t => t
       | _ => "<nil>"
       end;
     Error_string := fun v =>
       match v with
       | errs.Ptr e => errs.Msg e
       | errs.ClientNoResponse => "client no response"
       | errs.Other t => t
       end;
     Duration_string := fun d => if d <? 1000000 then "under 1ms" else "1ms or more";
     Node_format := fun n => registry.Address n;
     SerializationTypePB := 0;
     IsValidCompressType := fun t => 0 <=? t;
     CompressTypeNoop := 0;
     Marshal := fun _ body => inl (list_byte_of_string body);
     Unmarshal := fun _ buf _ => (None, string_of_list_byte buf);
     Compress := fun _ buf => inl (Byte.x01 :: buf);
     Decompress := fun _ buf => inl (tl buf);
     getOptionsByCalleeAndUserOptions := fun _ _ => base;
     parseTarget := fun o => (None, o);
     LoadNodeConfig := fun _ o => o;
     Node_set := fun n a cost o =>
       set_Node (Some {| registry.ServiceName := registry.ServiceName n;
                         registry.ContainerName := registry.ContainerName n;
                         registry.Address := a; registry.Network := registry.Network n;
                         registry.Protocol := registry.Protocol n;
                         registry.SetName := registry.SetName n;
                         registry.Weight := registry.Weight n; registry.CostTime := cost;
                         registry.EnvKey := registry.EnvKey n;
                         registry.Metadata := registry.Metadata n |}) o;
     findFirstNonEmpty := fun a b => if String.eqb a "" then b else a;
     DefaultSelectorFilterName := "selector";
     userFilter := fun i =>
       match i with
       | O => fun _ _ _ _ => ret (Some timeoutError)
       | S _ => fun ctx req rsp next => next ctx req rsp
       end |}.

(** A world in which every address holds [o]. *)
Definition world (o : Options Body Ext) (msg : codec.Msg Body) : World Body Ext :=
  {| wMsg := msg; wOptions := fun _ => o; wFresh := 1; wBodies := fun _ => "";
     wTrace := []; wExt := 0 |}.

Definition ctx (deadline : option Z) : context.Ctx :=
  {| context.Deadline := deadline; context.ctxOptions := 0; context.ctxImmutable := false |}.

End Sample.

(** *** Properties *)
Section Properties.
Context {Body Ext : Type}.
Variable env : Env Body Ext.

Local Abbreviation World := (World Body Ext).
Local Abbreviation Options := (Options Body Ext).
Local Abbreviation M := (M Body Ext).

(** Unfolds the primitive steps of [M]. *)
Ltac run :=
  cbv [bind ret when getMsg putMsg modifyMsg deref store modifyOptions newOptions emit
       extern putBody now onMsg report roundTrip unmarshal] in *;
  cbn [fst snd wMsg wOptions wFresh wBodies wTrace wExt] in *.

(** **** The filter chain *)

(** C5.  The chain [fixFilters] returns is [[selectorFilter]] alone when
    filters are disabled or the user registered none; otherwise the
    user's list with [selectorFilter] appended once at its end when the
    position of the selector filter is not pinned, and the user's list
    as it is, the selector filter at the positions the user gave it,
    when it is pinned. *)
Theorem fixFilters_effective_chain (p : nat) (w : World) :
  let opts := wOptions w p in
  let chain := fst (fixFilters env p w) in
  (DisableFilter opts = true \/ Filters opts = [] -> chain = [SelectorFilterRef]) /\
  (DisableFilter opts = false -> Filters opts <> [] ->
   selectorFilterPosFixed opts = false ->
   chain = Filters opts ++ [SelectorFilterRef]) /\
  (DisableFilter opts = false -> Filters opts <> [] ->
   selectorFilterPosFixed opts = true ->
   chain = Filters opts /\
   forall i, nth_error chain i = Some SelectorFilterRef <->
             nth_error (Filters opts) i = Some SelectorFilterRef).
Proof.
  cbv zeta. unfold fixFilters. run.
  destruct (DisableFilter (wOptions w p)) eqn:Hd;
    destruct (Filters (wOptions w p)) as [|f fs] eqn:Hf;
    destruct (selectorFilterPosFixed (wOptions w p)) eqn:Hp;
    cbn; rewrite ?Nat.eqb_refl; cbn; rewrite ?Hf;
    repeat split; intros; try reflexivity; try congruence; try tauto;
    match goal with
    | H : _ \/ _ |- _ => destruct H; congruence
    end.
Qed.

(** **** The request path *)

(** C8.  On the request path the serialization type in force is
    [Options.CurrentSerializationType] when that is valid and the type of
    the message otherwise, valid meaning at least [SerializationTypePB].
    [Marshal] is called, with that type, exactly when it is valid.  When
    it is not, nothing is marshalled and the body buffer is empty with
    no error: it is what [serializeAndCompress] returns, or what it
    hands to the compressor. *)
Theorem serialization_type_in_force (reqBody : Body) (p : nat) (w : World) :
  let msg := wMsg w in
  let opts := wOptions w p in
  let t := if IsValidSerializationType env (CurrentSerializationType opts)
           then CurrentSerializationType opts else codec.SerializationType msg in
  let ct := if IsValidCompressType env (CurrentCompressType opts)
            then CurrentCompressType opts else codec.CompressType msg in
  let compresses := IsValidCompressType env ct && negb (ct =? CompressTypeNoop env) in
  let r := fst (serializeAndCompress env reqBody p w) in
  let w' := snd (serializeAndCompress env reqBody p w) in
  (forall u, IsValidSerializationType env u = true <-> SerializationTypePB env <= u) /\
  (IsValidSerializationType env t = true ->
   exists rest, wTrace w' = wTrace w ++ EvMarshal t reqBody :: rest /\
                filter isMarshal rest = []) /\
  (IsValidSerializationType env t = false ->
   filter isMarshal (wTrace w') = filter isMarshal (wTrace w) /\
   (compresses = false -> r = inl [] /\ w' = w) /\
   (compresses = true -> wTrace w' = wTrace w ++ [EvCompress ct []])).
Proof.
  cbv zeta. split; [|split].
  - intro u. unfold IsValidSerializationType, icodec.IsValidSerializationType.
    rewrite Z.geb_le. reflexivity.
  - intro Hv. unfold serializeAndCompress. run. rewrite Hv. cbn.
    destruct (Marshal env _ reqBody) as [buf|err]; cbn.
    + match goal with
      | |- context [if ?c then _ else _] => destruct c
      end; cbn.
      * destruct (Compress env _ buf); cbn; eexists; split;
          try (rewrite <- app_assoc; reflexivity); reflexivity.
      * eexists; split; reflexivity.
    + eexists; split; reflexivity.
  - intro Hv. unfold serializeAndCompress. run. rewrite Hv. cbn.
    match goal with
    | |- context [if ?c then _ else _] => destruct c
    end; cbn.
    + destruct (Compress env _ []); cbn; rewrite ?filter_app; cbn;
        rewrite ?app_nil_r; repeat split; intros; try discriminate; reflexivity.
    + repeat split; intros; try discriminate; try reflexivity.
Qed.

(** C10.  On the request path [Compress] is called whenever the compress
    type in force is valid and not noop, whatever the body buffer: on
    the empty buffer left by an invalid serialization type, and on any
    buffer [Marshal] returned, the empty one too.  The response path
    does skip: an empty decoded body returns nil at once, before
    decompress and unmarshal. *)
Theorem compress_does_not_skip_empty (reqBody : Body) (p : nat) (w : World) :
  let msg := wMsg w in
  let opts := wOptions w p in
  let t := if IsValidSerializationType env (CurrentSerializationType opts)
           then CurrentSerializationType opts else codec.SerializationType msg in
  let ct := if IsValidCompressType env (CurrentCompressType opts)
            then CurrentCompressType opts else codec.CompressType msg in
  let r := fst (serializeAndCompress env reqBody p w) in
  let w' := snd (serializeAndCompress env reqBody p w) in
  IsValidCompressType env ct = true ->
  ct <> CompressTypeNoop env ->
  (IsValidSerializationType env t = false ->
   wTrace w' = wTrace w ++ [EvCompress ct []] /\
   r = encodeFail env "client codec Compress: " (Compress env ct [])) /\
  (forall buf, IsValidSerializationType env t = true ->
               Marshal env t reqBody = inl buf ->
   wTrace w' = wTrace w ++ [EvMarshal t reqBody; EvCompress ct buf] /\
   r = encodeFail env "client codec Compress: " (Compress env ct buf)) /\
  (forall rspBody, codec.ClientRspErr msg = None ->
   processResponseBuf env rspBody [] p w = (None, w)).
Proof.
  cbv zeta. intros Hc Hn.
  assert (Hnoop : negb ((if IsValidCompressType env (CurrentCompressType (wOptions w p))
                         then CurrentCompressType (wOptions w p)
                         else codec.CompressType (wMsg w)) =? CompressTypeNoop env) = true).
  { apply negb_true_iff, Z.eqb_neq. exact Hn. }
  split; [|split].
  - intro Hv. unfold serializeAndCompress. run. rewrite Hv. cbn.
    rewrite Hc, Hnoop. cbn.
    destruct (Compress env _ []); cbn; split; reflexivity.
  - intros buf Hv Hm. unfold serializeAndCompress. run. rewrite Hv. cbn.
    rewrite Hm. cbn. rewrite Hc, Hnoop. cbn.
    destruct (Compress env _ buf); cbn; rewrite <- app_assoc; split; reflexivity.
  - intros rspBody He. unfold processResponseBuf. run. rewrite He. reflexivity.
Qed.

(** **** The byte pipeline *)

(** The request path touches the trace only. *)
Lemma serializeAndCompress_frame (reqBody : Body) (p : nat) (w : World) :
  let w' := snd (serializeAndCompress env reqBody p w) in
  wMsg w' = wMsg w /\ wOptions w' = wOptions w /\ wFresh w' = wFresh w /\
  wBodies w' = wBodies w /\ wExt w' = wExt w.
Proof.
  cbv zeta. unfold serializeAndCompress. run.
  repeat match goal with
         | |- context [if ?c then _ else _] => destruct c; cbn
         | |- context [match ?c with inl _ => _ | inr _ => _ end] => destruct c; cbn
         end; repeat split.
Qed.

Lemma prepareRequestBuf_frame (c : codec.Codec Body) (reqBody : Body) (p : nat) (w : World) :
  let w' := snd (prepareRequestBuf env c reqBody p w) in
  wOptions w' = wOptions w /\ wFresh w' = wFresh w /\
  wBodies w' = wBodies w /\ wExt w' = wExt w.
Proof.
  cbv zeta. unfold prepareRequestBuf. run.
  pose proof (serializeAndCompress_frame reqBody p w) as F. cbv zeta in F.
  destruct (serializeAndCompress env reqBody p w) as [r w1]. cbn in F.
  destruct F as (Fm & Fo & Ff & Fb & Fx).
  destruct r as [buf|err]; cbn.
  - destruct (codec.Encode c (wMsg w1) buf) as [r2 m2]. cbn.
    destruct r2; cbn; repeat split; assumption.
  - repeat split; assumption.
Qed.

(** C3.  When [Decode] returns without error and has left a non-nil
    [ClientRspErr] in the message, [callFunc] returns that error (through
    [fixTimeout], which leaves it as it is unless it carries the code
    [RetClientTimeout]); the object behind the response body is as it
    was, and after the round trip the only call made is [Decode]:
    neither decompress nor unmarshal.  The decoded buffer
    [rspBodyBuf] is any buffer, empty or not. *)
Theorem response_error_wins (ctx : context.Ctx) (reqBody : Body) (rspBody : nat) (w w1 : World)
  (c : codec.Codec Body) (reqBuf rspBuf rspBodyBuf : bytes) (msg2 msg3 : codec.Msg Body)
  (x2 : Ext) (e : errs.value) :
  let p := OptionsFromContext ctx in
  let opts := multiplexed (wOptions w p) in
  let res := callFunc env ctx reqBody rspBody w in
  Codec (wOptions w p) = Some c ->
  prepareRequestBuf env c reqBody p w = (inl reqBuf, w1) ->
  transport.RoundTrip (Transport opts) ctx reqBuf (CallOptions opts) (wMsg w1) (wExt w1)
    = (inl rspBuf, msg2, x2) ->
  codec.Decode c msg2 rspBuf = (inl rspBodyBuf, msg3) ->
  codec.ClientRspErr msg3 = Some e ->
  fst res = fixTimeout (wOptions w p) (Some e) /\
  (isTimeoutAdapter (fixTimeout (wOptions w p)) ->
   ~ hasCode errs.RetClientTimeout (Some e) -> fst res = Some e) /\
  wBodies (snd res) = wBodies w /\
  wTrace (snd res) = wTrace w1 ++ [EvRoundTrip reqBuf (CallOptions opts); EvDecode rspBuf].
Proof.
  cbv zeta. intros Hc Hp Hr Hd He.
  pose proof (prepareRequestBuf_frame c reqBody (OptionsFromContext ctx) w) as F.
  cbv zeta in F. rewrite Hp in F. cbn in F. destruct F as (Fo & Ff & Fb & Fx).
  assert (Hcall : callFunc env ctx reqBody rspBody w =
    (fixTimeout (wOptions w (OptionsFromContext ctx)) (Some e),
     {| wMsg := msg3;
        wOptions := (if EnableMultiplexed (wOptions w (OptionsFromContext ctx))
                     then fun q => if Nat.eqb q (OptionsFromContext ctx)
                                   then multiplexed (wOptions w (OptionsFromContext ctx))
                                   else wOptions w q
                     else wOptions w);
        wFresh := wFresh w; wBodies := wBodies w;
        wTrace := wTrace w1 ++ [EvRoundTrip reqBuf
                                  (CallOptions (multiplexed (wOptions w (OptionsFromContext ctx))));
                                EvDecode rspBuf];
        wExt := x2 |})).
  { unfold callFunc, call. run. rewrite Hc, Hp. cbn [fst snd]. rewrite Fo.
    unfold multiplexed in *.
    destruct (EnableMultiplexed (wOptions w (OptionsFromContext ctx))) eqn:Em;
      run; rewrite ?Nat.eqb_refl; rewrite ?Fo; rewrite Hr; run; rewrite Hd; run;
      unfold processResponseBuf; run; rewrite He; run; rewrite ?Nat.eqb_refl;
      rewrite ?Ff, ?Fb, <- ?app_assoc; cbn; reflexivity. }
  rewrite Hcall. cbn [fst snd wBodies wTrace].
  repeat split.
  intros [Ha|Ha] Hn; rewrite Ha; [reflexivity|].
  unfold mayConvert2FullLinkTimeout. destruct e as [e'| |t]; try reflexivity.
  destruct (errs.RetCode_eqb (errs.Code e') errs.RetClientTimeout) eqn:Hq; [|reflexivity].
  exfalso. apply Hn. exists e'. split; [reflexivity|].
  destruct (errs.Code e'); cbn in Hq; try discriminate. reflexivity.
Qed.

(** Both adapters keep nil and never turn an error into nil. *)
Lemma adapter_nil (f : errs.error -> errs.error) : isTimeoutAdapter f -> f None = None.
Proof. intros [H|H]; rewrite H; reflexivity. Qed.

Lemma adapter_some (f : errs.error -> errs.error) (v : errs.value) :
  isTimeoutAdapter f -> f (Some v) <> None.
Proof.
  intros [H|H]; rewrite H; cbn; [discriminate|].
  destruct v as [e| |t]; try discriminate.
  destruct (errs.RetCode_eqb (errs.Code e) errs.RetClientTimeout); discriminate.
Qed.

(** C9.  When the round trip returns an error, nothing is decoded and
    the response body is not touched.  If the error is the sentinel
    [ErrClientNoResponse], [callFunc] returns nil; any other error is
    returned to the caller, through [fixTimeout]. *)
Theorem no_response_is_success (ctx : context.Ctx) (reqBody : Body) (rspBody : nat)
  (w w1 : World) (c : codec.Codec Body) (reqBuf : bytes) (msg2 : codec.Msg Body)
  (x2 : Ext) (err : errs.value) :
  let p := OptionsFromContext ctx in
  let opts := multiplexed (wOptions w p) in
  let res := callFunc env ctx reqBody rspBody w in
  Codec (wOptions w p) = Some c ->
  prepareRequestBuf env c reqBody p w = (inl reqBuf, w1) ->
  transport.RoundTrip (Transport opts) ctx reqBuf (CallOptions opts) (wMsg w1) (wExt w1)
    = (inr err, msg2, x2) ->
  isTimeoutAdapter (fixTimeout (wOptions w p)) ->
  wTrace (snd res) = wTrace w1 ++ [EvRoundTrip reqBuf (CallOptions opts)] /\
  wBodies (snd res) = wBodies w /\
  (err = errs.ErrClientNoResponse -> fst res = None) /\
  (err <> errs.ErrClientNoResponse ->
   fst res = fixTimeout (wOptions w p) (Some err) /\ fst res <> None).
Proof.
  cbv zeta. intros Hc Hp Hr Ha.
  pose proof (prepareRequestBuf_frame c reqBody (OptionsFromContext ctx) w) as F.
  cbv zeta in F. rewrite Hp in F. cbn in F. destruct F as (Fo & Ff & Fb & Fx).
  assert (Hcall : callFunc env ctx reqBody rspBody w =
    (fixTimeout (wOptions w (OptionsFromContext ctx))
       (match err with errs.ClientNoResponse => None | _ => Some err end),
     {| wMsg := msg2;
        wOptions := (if EnableMultiplexed (wOptions w (OptionsFromContext ctx))
                     then fun q => if Nat.eqb q (OptionsFromContext ctx)
                                   then multiplexed (wOptions w (OptionsFromContext ctx))
                                   else wOptions w q
                     else wOptions w);
        wFresh := wFresh w; wBodies := wBodies w;
        wTrace := wTrace w1 ++ [EvRoundTrip reqBuf
                                  (CallOptions (multiplexed (wOptions w (OptionsFromContext ctx))))];
        wExt := x2 |})).
  { unfold callFunc, call. run. rewrite Hc, Hp. cbn [fst snd]. rewrite Fo.
    unfold multiplexed in *.
    destruct (EnableMultiplexed (wOptions w (OptionsFromContext ctx))) eqn:Em;
      run; rewrite ?Nat.eqb_refl; rewrite ?Fo; rewrite Hr; run;
      destruct err; run; rewrite ?Nat.eqb_refl; rewrite ?Ff, ?Fb; cbn; reflexivity. }
  rewrite Hcall. cbn [fst snd wBodies wTrace].
  repeat split.
  - intros ->. apply adapter_nil, Ha.
  - destruct err; try reflexivity. exfalso. apply H. reflexivity.
  - destruct err; try (apply adapter_some, Ha). exfalso. apply H. reflexivity.
Qed.

(** **** Node selection *)

Lemma adapter_route_error (f : errs.error -> errs.error) (text : string) :
  isTimeoutAdapter f ->
  f (Some (errs.NewFrameError errs.RetClientRouteErr text))
  = Some (errs.NewFrameError errs.RetClientRouteErr text).
Proof. intros [H|H]; rewrite H; reflexivity. Qed.

(** C6.  When [Selector.Select] returns an error, or a node whose
    address is empty, [selectorFilter] returns a framework error with
    code [RetClientRouteErr]; the only call it has made is that
    [Select]: no [Report], and [next] is not run, whatever [next] is
    (so no round trip). *)
Theorem route_failure_stops_the_call (ctx : context.Ctx) (req : Body) (rsp : nat)
  (next : ClientHandleFunc Body Ext) (w : World) :
  let ctx' := fst (fst (ownOptions ctx w)) in
  let p := snd (fst (ownOptions ctx w)) in
  let opts := wOptions (snd (ownOptions ctx w)) p in
  let selectOpts := SelectOptions opts ++ [selector.WithContext ctx'] in
  let answer := fst (selector.Select (Selector opts) (endpoint opts) selectOpts (wExt w)) in
  let res := selectorFilter env ctx req rsp next w in
  isTimeoutAdapter (fixTimeout (wOptions w (OptionsFromContext ctx))) ->
  (exists e, answer = inr e) \/
  (exists node, answer = inl node /\ registry.Address node = "") ->
  (exists text, fst res = Some (errs.NewFrameError errs.RetClientRouteErr text)) /\
  wTrace (snd res) = wTrace w ++ [EvSelect (endpoint opts) selectOpts] /\
  (forall next', selectorFilter env ctx req rsp next' w = res).
Proof.
  cbv zeta. intros Ha Hs.
  unfold selectorFilter, ownOptions, selectNode, getNode in *.
  unfold IsOptionsImmutable, OptionsFromContext in *.
  destruct (context.ctxImmutable ctx); run; rewrite ?Nat.eqb_refl in *; run.
  all: unfold clone, rebuildSliceCapacity in *.
  all: cbn [Selector endpoint SelectOptions set_SelectOptions] in *.
  all: match goal with
       | |- context [selector.Select ?s ?e ?o ?x] =>
           destruct (selector.Select s e o x) as [ans x'] eqn:Hsel
       end; run.
  all: cbn [fst] in Hs.
  all: destruct Hs as [[e He] | [node [He Hn]]]; subst ans; run.
  all: try (rewrite Hn, String.eqb_refl; run).
  all: cbn [context.ctxOptions context.contextWithOptions]; rewrite ?Nat.eqb_refl.
  all: cbn [fixTimeout set_SelectOptions].
  all: rewrite (adapter_route_error _ _ Ha).
  all: repeat split; try (eexists; reflexivity).
Qed.

(** **** The report to the selector *)

Lemma RetCode_eqb_eq (a b : errs.RetCode) : errs.RetCode_eqb a b = true <-> a = b.
Proof.
  split.
  - destruct a, b; cbn; intro H; try discriminate; try reflexivity.
    apply Z.eqb_eq in H. congruence.
  - intros <-. destruct a; cbn; try reflexivity. apply Z.eqb_refl.
Qed.

Lemma ErrorType_eqb_eq (a b : errs.ErrorType) : errs.ErrorType_eqb a b = true <-> a = b.
Proof. destruct a, b; cbn; split; intro H; try discriminate; reflexivity. Qed.

Lemma transportFailure_Some (err : errs.error) :
  (exists e, transportFailure err = Some e) <-> isTransportFailure err.
Proof.
  unfold transportFailure, isTransportFailure. split.
  - intros [e H]. destruct err as [[e'| |t]|]; try discriminate.
    destruct (errs.ErrorType_eqb _ _) eqn:Ht; cbn in H; [|discriminate].
    destruct (_ || _) eqn:Hc in H; [|discriminate].
    exists e'. split; [reflexivity|]. split; [apply ErrorType_eqb_eq, Ht|].
    rewrite !orb_true_iff, !RetCode_eqb_eq in Hc. tauto.
  - intros (e & -> & Ht & Hc). exists e.
    apply ErrorType_eqb_eq in Ht. rewrite Ht. cbn.
    assert (H : errs.RetCode_eqb (errs.Code e) errs.RetClientConnectFail
                || errs.RetCode_eqb (errs.Code e) errs.RetClientTimeout
                || errs.RetCode_eqb (errs.Code e) errs.RetClientNetErr = true).
    { rewrite !orb_true_iff, !RetCode_eqb_eq. tauto. }
    rewrite H. reflexivity.
Qed.

(** C2, as the code has it.  In a call in which node selection
    succeeds, [selectorFilter] calls [Selector.Report] once, after
    [next] has returned and as the last call it makes, with the cost
    measured by the clock around [next].  The error it reports is: the
    error of [next] with the cost appended to its text, when that is a
    framework error of kind [ClientConnectFail], [ClientTimeout] or
    [ClientNetErr]; the error of [next] as it is, when
    [shouldErrReportToSelector] holds of it; nil otherwise.  So it is
    not nil exactly when the error of [next] is not nil and is of those
    kinds or satisfies the predicate. *)
Theorem report_follows_next (ctx : context.Ctx) (req : Body) (rsp : nat)
  (next : ClientHandleFunc Body Ext) (w w1 : World) (node : registry.Node Body) :
  let ctx' := fst (fst (ownOptions ctx w)) in
  let p := snd (fst (ownOptions ctx w)) in
  let w0 := snd (ownOptions ctx w) in
  let network := findFirstNonEmpty env (registry.Network node) (Network (wOptions w1 p)) in
  let w2 := snd (ensureMsgRemoteAddr env network (registry.Address node) w1) in
  let begin := fst (now env w2) in
  let err := fst (next ctx' req rsp (snd (now env w2))) in
  let w3 := snd (next ctx' req rsp (snd (now env w2))) in
  let finish := fst (now env w3) in
  let cost := time.Sub finish begin in
  let reported := reportedError env (wOptions w3 p) err cost in
  let res := selectorFilter env ctx req rsp next w in
  selectNode env ctx' p w0 = (inl node, w1) ->
  wTrace (snd res) = wTrace w3 ++ [EvReport node cost reported] /\
  (reported <> None <->
   err <> None /\
   (isTransportFailure err \/ shouldErrReportToSelector (wOptions w3 p) err = true)) /\
  fst res = returnedError env err cost.
Proof.
  cbv zeta. intro Hs. unfold selectorFilter, reportedError, returnedError. run.
  destruct (ownOptions ctx w) as [[ctx' p] w0]. run. rewrite Hs. run.
  destruct (ensureMsgRemoteAddr env _ _ w1) as [u w2]. run.
  destruct (time_Now env (wExt w2)) as [begin x2]. run.
  match goal with
  | |- context [next ctx' req rsp ?v] => destruct (next ctx' req rsp v) as [err w3]
  end. run.
  destruct (time_Now env (wExt w3)) as [finish x3]. run.
  pose proof (transportFailure_Some err) as Hiff.
  destruct (transportFailure err) as [e|] eqn:Htf; run.
  - destruct (codec.RemoteAddr (wMsg w3)); run.
    all: split; [reflexivity|split; [|reflexivity]].
    all: split; [intros _|discriminate].
    all: split; [unfold transportFailure in Htf; destruct err; discriminate|].
    all: left; apply Hiff; exists e; reflexivity.
  - destruct (shouldErrReportToSelector (wOptions w3 p) err) eqn:Hp; run;
      destruct (codec.RemoteAddr (wMsg w3)); run.
    all: split; [reflexivity|split; [|reflexivity]].
    1,2: split; [intro H; split; [exact H|right; reflexivity]|tauto].
    all: split; [congruence|]; intros [_ [H|H]]; [|discriminate].
    all: apply Hiff in H; destruct H; discriminate.
Qed.

(** **** What the pipeline leaves alone in [Options] *)
Section Fields.
Context {X : Type}.
Variable field : Options -> X.
Hypothesis field_CallOptions : forall v o, field (set_CallOptions v o) = field o.
Hypothesis field_SelectOptions : forall v o, field (set_SelectOptions v o) = field o.
Hypothesis field_endpoint : forall v o, field (set_endpoint v o) = field o.
Hypothesis field_LoadNodeConfig : forall node o, field (LoadNodeConfig env node o) = field o.

Lemma keepsField_ret (A : Type) (a : A) : keepsField field (ret a).
Proof. intros w q. reflexivity. Qed.

Lemma keepsField_bind (A B : Type) (m : M A) (k : A -> M B) :
  keepsField field m -> (forall a, keepsField field (k a)) -> keepsField field (bind m k).
Proof.
  intros Hm Hk w q. unfold bind. specialize (Hm w q).
  destruct (m w) as [a w']. cbn [snd] in *. rewrite Hk. exact Hm.
Qed.

Lemma keepsField_when (b : bool) (m : M unit) :
  keepsField field m -> keepsField field (when b m).
Proof. intro H. destruct b; [exact H|apply keepsField_ret]. Qed.

Lemma keepsField_getMsg : keepsField field getMsg.
Proof. intros w q. reflexivity. Qed.

Lemma keepsField_modifyMsg (f : codec.Msg Body -> codec.Msg Body) :
  keepsField field (modifyMsg f).
Proof. intros w q. reflexivity. Qed.

Lemma keepsField_putMsg (m : codec.Msg Body) : keepsField field (putMsg m).
Proof. intros w q. reflexivity. Qed.

Lemma keepsField_deref (p : nat) : keepsField field (deref p).
Proof. intros w q. reflexivity. Qed.

Lemma keepsField_emit (ev : Event Body) : keepsField field (emit ev).
Proof. intros w q. reflexivity. Qed.

Lemma keepsField_extern (A : Type) (f : Ext -> A * Ext) : keepsField field (extern f).
Proof. intros w q. unfold extern. destruct (f (wExt w)). reflexivity. Qed.

Lemma keepsField_modifyOptions (p : nat) (f : Options -> Options) :
  (forall o, field (f o) = field o) -> keepsField field (modifyOptions p f).
Proof.
  intros H w q. run. destruct (Nat.eqb_spec q p) as [->|_]; [apply H|reflexivity].
Qed.

Lemma keepsField_onMsg (f : codec.Msg Body -> bytes -> errs.result bytes * codec.Msg Body)
  (buf : bytes) : keepsField field (onMsg f buf).
Proof. intros w q. run. destruct (f (wMsg w) buf). reflexivity. Qed.

Lemma keepsField_roundTrip (t : transport.ClientTransport Body Ext) (ctx : context.Ctx)
  (buf : bytes) (callOpts : list transport.CallOption) :
  keepsField field (roundTrip t ctx buf callOpts).
Proof.
  intros w q. run.
  destruct (transport.RoundTrip t ctx buf callOpts (wMsg w) (wExt w)) as [[r m] x].
  reflexivity.
Qed.

Lemma keepsField_unmarshal (t : Z) (buf : bytes) (rspBody : nat) :
  keepsField field (unmarshal env t buf rspBody).
Proof. intros w q. run. destruct (Unmarshal env t buf (wBodies w rspBody)). reflexivity. Qed.

(** Goes through a computation built from the steps above. *)
Ltac keeps :=
  repeat first
    [ apply keepsField_ret | apply keepsField_getMsg | apply keepsField_modifyMsg
    | apply keepsField_putMsg | apply keepsField_deref | apply keepsField_emit
    | apply keepsField_extern | apply keepsField_onMsg | apply keepsField_roundTrip
    | apply keepsField_unmarshal
    | apply keepsField_modifyOptions; solve [cbv beta; auto]
    | apply keepsField_when
    | apply keepsField_bind; [|intro]
    | match goal with
      | |- keepsField _ (match ?x with _ => _ end) => destruct x
      end
    | assumption ].

Lemma keepsField_serializeAndCompress (reqBody : Body) (p : nat) :
  keepsField field (serializeAndCompress env reqBody p).
Proof. unfold serializeAndCompress. keeps. Qed.

Lemma keepsField_prepareRequestBuf (c : codec.Codec Body) (reqBody : Body) (p : nat) :
  keepsField field (prepareRequestBuf env c reqBody p).
Proof.
  pose proof keepsField_serializeAndCompress. unfold prepareRequestBuf. keeps.
Qed.

Lemma keepsField_processResponseBuf (rspBody : nat) (buf : bytes) (p : nat) :
  keepsField field (processResponseBuf env rspBody buf p).
Proof. unfold processResponseBuf. keeps. Qed.

Lemma keepsField_call (ctx : context.Ctx) (reqBody : Body) (rspBody p : nat) :
  keepsField field (call env ctx reqBody rspBody p).
Proof.
  pose proof keepsField_prepareRequestBuf. pose proof keepsField_processResponseBuf.
  unfold call. keeps.
Qed.

Lemma keepsField_ensureMsgRemoteAddr (network address : string) :
  keepsField field (ensureMsgRemoteAddr env network address).
Proof. unfold ensureMsgRemoteAddr. keeps. Qed.

Lemma keepsField_now : keepsField field (now env).
Proof. unfold now. keeps. Qed.

Lemma keepsField_getNode (p : nat) : keepsField field (getNode env p).
Proof. unfold getNode. keeps. Qed.

Lemma keepsField_selectNode (ctx : context.Ctx) (p : nat) :
  keepsField field (selectNode env ctx p).
Proof. pose proof keepsField_getNode. unfold selectNode. keeps. Qed.

Lemma keepsField_setAttachment (attm : Body) : keepsField field (setAttachment attm).
Proof. unfold setAttachment. keeps. Qed.

Lemma keepsField_updateMsg (p : nat) : keepsField field (updateMsg env p).
Proof. pose proof keepsField_setAttachment. unfold updateMsg. keeps. Qed.

Lemma keepsField_withRequestTimeout (ctx : context.Ctx) (p : nat) :
  keepsField field (withRequestTimeout env ctx p).
Proof. pose proof keepsField_now. unfold withRequestTimeout. keeps. Qed.

End Fields.

(** **** The timeout adapter *)

Lemma callFunc_fixed (ctx : context.Ctx) (req : Body) (rsp : nat) (w : World) :
  fst (callFunc env ctx req rsp w)
  = fixTimeout (wOptions w (OptionsFromContext ctx))
      (fst (call env ctx req rsp (OptionsFromContext ctx) w)).
Proof.
  unfold callFunc. run.
  pose proof (keepsField_call fixTimeout (fun _ _ => eq_refl) ctx req rsp
                (OptionsFromContext ctx) w (OptionsFromContext ctx)) as K.
  destruct (call env ctx req rsp (OptionsFromContext ctx) w) as [e w']. run.
  rewrite K. reflexivity.
Qed.

Lemma ownOptions_fixTimeout (ctx : context.Ctx) (w : World) :
  let ctx' := fst (fst (ownOptions ctx w)) in
  let p := snd (fst (ownOptions ctx w)) in
  OptionsFromContext ctx' = p /\
  fixTimeout (wOptions (snd (ownOptions ctx w)) p)
  = fixTimeout (wOptions w (OptionsFromContext ctx)).
Proof.
  cbv zeta. unfold ownOptions, IsOptionsImmutable.
  destruct (context.ctxImmutable ctx); run; rewrite ?Nat.eqb_refl; split; reflexivity.
Qed.

(** C1, as the code has it.  Every error [callFunc] returns has been
    passed through the adapter [fixTimeout] of the call.  So has every
    error returned by the chain made of [selectorFilter] alone, the one
    [Invoke] runs when filters are disabled or none is registered: an
    error of node selection and an error of [callFunc] alike, the
    latter with the cost then appended to its text when it is of a
    transport kind.  An error that an interceptor returns without
    calling [next] is returned by the chain as it is.
    ([LoadNodeConfig] is taken to leave the adapter as it is.) *)
Theorem errors_pass_fixTimeout (ctx : context.Ctx) (req : Body) (rsp : nat) (w : World) :
  let f := fixTimeout (wOptions w (OptionsFromContext ctx)) in
  let err := fst (ClientChain_Filter (map (filterOf env) [SelectorFilterRef])
                    ctx req rsp (callFunc env) w) in
  (forall node (o : Options), fixTimeout (LoadNodeConfig env node o) = fixTimeout o) ->
  (exists e0, fst (callFunc env ctx req rsp w) = f e0) /\
  (exists e0, err = f e0 \/
              exists e cost, transportFailure (f e0) = Some e /\
                             err = Some (errs.Ptr (withCost env e cost))) /\
  (forall (g : ClientFilter Body Ext) (e : errs.error) (rest : list (ClientFilter Body Ext)),
     (forall ctx' req' rsp' next, g ctx' req' rsp' next = ret e) ->
     fst (ClientChain_Filter (g :: rest) ctx req rsp (callFunc env) w) = e).
Proof.
  cbv zeta. intro HL. split; [|split].
  - eexists. apply callFunc_fixed.
  - change (ClientChain_Filter (map (filterOf env) [SelectorFilterRef]) ctx req rsp
              (callFunc env) w)
      with (selectorFilter env ctx req rsp (callFunc env) w).
    unfold selectorFilter. run.
    pose proof (ownOptions_fixTimeout ctx w) as Ho. cbv zeta in Ho.
    destruct (ownOptions ctx w) as [[ctx' p] w0]. run. destruct Ho as [Hp Hf].
    pose proof (keepsField_selectNode fixTimeout (fun _ _ => eq_refl) HL ctx' p w0 p) as K1.
    destruct (selectNode env ctx' p w0) as [[node|e] w1]; run.
    + pose proof (keepsField_ensureMsgRemoteAddr fixTimeout
                    (findFirstNonEmpty env (registry.Network node) (Network (wOptions w1 p)))
                    (registry.Address node) w1 p) as K2.
      destruct (ensureMsgRemoteAddr env _ _ w1) as [u w2]. run.
      destruct (time_Now env (wExt w2)) as [begin x2]. run.
      match goal with
      | |- context [callFunc env ctx' req rsp ?v] =>
          pose proof (callFunc_fixed ctx' req rsp v) as K3;
          destruct (callFunc env ctx' req rsp v) as [err w3]
      end. run.
      rewrite Hp, K2, K1, Hf in K3.
      destruct (time_Now env (wExt w3)) as [finish x3]. run.
      eexists. rewrite <- K3.
      destruct (transportFailure err) as [e|] eqn:Htf; run.
      * right. exists e. eexists.
        destruct (codec.RemoteAddr (wMsg w3)); run; split; reflexivity.
      * left. destruct (shouldErrReportToSelector (wOptions w3 p) err); run;
          destruct (codec.RemoteAddr (wMsg w3)); reflexivity.
    + exists (Some e). left. rewrite Hp, K1, Hf. reflexivity.
  - intros g e rest Hg. cbn [ClientChain_Filter]. rewrite Hg. reflexivity.
Qed.

(** A saturated difference is below a positive duration exactly when
    the exact one is. *)
Lemma Sub_lt (d t T : Z) :
  0 < T -> T <= time.maxDuration -> ((time.Sub d t <? T) = true <-> d < t + T).
Proof.
  intros H0 Hm. unfold time.Sub, time.minDuration, time.maxDuration in *.
  rewrite Z.ltb_lt.
  destruct (d - t <? - 2 ^ 63) eqn:E1; [apply Z.ltb_lt in E1; split; lia|].
  apply Z.ltb_ge in E1.
  destruct (2 ^ 63 - 1 <? d - t) eqn:E2;
    [apply Z.ltb_lt in E2|apply Z.ltb_ge in E2]; split; lia.
Qed.

(** C4.  [Invoke], once [getOptions] has returned [opts], reaches line
    95 in the world [w1] and goes on from line 99 in the world [w2].
    If the incoming context has a deadline [d] and either
    [Options.Timeout <= 0] or [d] is before the instant [t] read by
    [time.Until] plus [Options.Timeout], then in [w2] the adapter of the
    call is [mayConvert2FullLinkTimeout], which turns an error of code
    [RetClientTimeout] into the same error with code
    [RetClientFullLinkTimeout].  Otherwise the adapter is the one
    [opts] came with: the identity when that is the default, and then a
    timeout error goes through unchanged. *)
Theorem full_link_deadline_marks_the_call (ctx : context.Ctx) (reqBody : Body)
  (rspBody : nat) (opt : list (Option Body Ext)) (opts : Options) (w : World) :
  let p := wFresh w in
  let ctx1 := fst (beforeFullLinkCheck env ctx opts w) in
  let w1 := snd (beforeFullLinkCheck env ctx opts w) in
  let t := fst (time_Now env (wExt w1)) in
  let w2 := snd (markFullLinkTimeout env (context.Deadline ctx) p w1) in
  let tighter := exists d, context.Deadline ctx = Some d /\
                           (Timeout opts <= 0 \/ d < t + Timeout opts) in
  getOptions env (wMsg w) opt = inl opts ->
  time.is_Duration (Timeout opts) ->
  Invoke env ctx reqBody rspBody opt w = afterFullLinkCheck env ctx1 reqBody rspBody p w2 /\
  (tighter ->
   fixTimeout (wOptions w2 p) = mayConvert2FullLinkTimeout /\
   forall e, errs.Code e = errs.RetClientTimeout ->
             fixTimeout (wOptions w2 p) (Some (errs.Ptr e)) = Some (errs.Ptr (retagged e))) /\
  (~ tighter ->
   fixTimeout (wOptions w2 p) = fixTimeout opts /\
   (fixTimeout opts = defaultFixTimeout ->
    forall err, fixTimeout (wOptions w2 p) err = err)).
Proof.
  cbv zeta. intros Hg Hd.
  assert (Hf : fixTimeout (wOptions (snd (beforeFullLinkCheck env ctx opts w)) (wFresh w))
               = fixTimeout opts /\
               Timeout (wOptions (snd (beforeFullLinkCheck env ctx opts w)) (wFresh w))
               = Timeout opts).
  { unfold beforeFullLinkCheck. run.
    match goal with
    | |- context [updateMsg env (wFresh w) ?v] => set (w0 := v)
    end.
    pose proof (keepsField_updateMsg fixTimeout (fun _ _ => eq_refl) (wFresh w)
                  w0 (wFresh w)) as K1.
    pose proof (keepsField_updateMsg Timeout (fun _ _ => eq_refl) (wFresh w)
                  w0 (wFresh w)) as K1'.
    destruct (updateMsg env (wFresh w) w0) as [u w0'].
    pose proof (keepsField_withRequestTimeout fixTimeout ctx (wFresh w) w0' (wFresh w)) as K2.
    pose proof (keepsField_withRequestTimeout Timeout ctx (wFresh w) w0' (wFresh w)) as K2'.
    destruct (withRequestTimeout env ctx (wFresh w) w0') as [c w0'']. cbn [snd] in *.
    rewrite K2, K1, K2', K1'. subst w0. cbn. rewrite Nat.eqb_refl. split; reflexivity. }
  destruct Hf as [Hf HT].
  split; [|split].
  - unfold Invoke, afterFullLinkCheck, beforeFullLinkCheck. run. rewrite Hg. run.
    match goal with
    | |- context [updateMsg env (wFresh w) ?v] =>
        destruct (updateMsg env (wFresh w) v) as [u w0']
    end.
    destruct (withRequestTimeout env ctx (wFresh w) w0') as [c w0'']. run.
    destruct (markFullLinkTimeout env (context.Deadline ctx) (wFresh w) w0'') as [u' w2].
    reflexivity.
  - intros (d & Hdl & Hc).
    assert (fixTimeout
              (wOptions (snd (markFullLinkTimeout env (context.Deadline ctx) (wFresh w)
                                (snd (beforeFullLinkCheck env ctx opts w)))) (wFresh w))
            = mayConvert2FullLinkTimeout) as Hm.
    { unfold markFullLinkTimeout. run. rewrite Hdl, HT.
      destruct (Timeout opts <=? 0) eqn:E; run; [rewrite Nat.eqb_refl; reflexivity|].
      apply Z.leb_gt in E. destruct Hc as [Hc|Hc]; [lia|].
      destruct (time_Now env (wExt (snd (beforeFullLinkCheck env ctx opts w)))) as [t x]. run.
      apply (Sub_lt d t (Timeout opts) E (proj2 Hd)) in Hc. rewrite Hc. run.
      rewrite Nat.eqb_refl. reflexivity. }
    split; [exact Hm|]. intros e He. rewrite Hm. unfold mayConvert2FullLinkTimeout.
    rewrite He. reflexivity.
  - intro Hn.
    assert (fixTimeout
              (wOptions (snd (markFullLinkTimeout env (context.Deadline ctx) (wFresh w)
                                (snd (beforeFullLinkCheck env ctx opts w)))) (wFresh w))
            = fixTimeout opts) as Hm.
    { unfold markFullLinkTimeout. run. rewrite HT.
      destruct (context.Deadline ctx) as [d|] eqn:Hdl; run; [|exact Hf].
      destruct (Timeout opts <=? 0) eqn:E; run.
      - exfalso. apply Hn. exists d. split; [reflexivity|]. left. apply Z.leb_le, E.
      - apply Z.leb_gt in E.
        destruct (time_Now env (wExt (snd (beforeFullLinkCheck env ctx opts w))))
          as [t x] eqn:Ht.
        run.
        destruct (time.Sub d t <? Timeout opts) eqn:Hc; run; [|exact Hf].
        exfalso. apply Hn. exists d. split; [reflexivity|]. right.
        apply (Sub_lt d t (Timeout opts) E (proj2 Hd)). exact Hc. }
    split; [exact Hm|]. intros Hi err. rewrite Hm, Hi. reflexivity.
Qed.

(** **** The remote address *)

(** An address already set is never overwritten. *)
Lemma ensureMsgRemoteAddr_keeps_address (network address : string) (w : World)
  (a : net.Addr) :
  codec.RemoteAddr (wMsg w) = Some a ->
  ensureMsgRemoteAddr env network address w = (tt, w).
Proof. intro H. unfold ensureMsgRemoteAddr. run. rewrite H. reflexivity. Qed.

(** On an IP network, an address that does not split or whose host is
    no literal IP is left to the transport. *)
Lemma ensureMsgRemoteAddr_defers_names (network address : string) (w : World) :
  isTCP network || isUDP network = true ->
  notLiteralIP env address = true ->
  ensureMsgRemoteAddr env network address w = (tt, w).
Proof.
  intros Hn Ha. unfold ensureMsgRemoteAddr. run. rewrite Hn, Ha.
  destruct (codec.RemoteAddr (wMsg w)); reflexivity.
Qed.

(** Otherwise the address is resolved by the resolver of the network,
    and what the resolver returns, nil pointer or not, is stored. *)
Lemma ensureMsgRemoteAddr_resolves (network address : string) (w : World) :
  let after := codec.RemoteAddr (wMsg (snd (ensureMsgRemoteAddr env network address w))) in
  codec.RemoteAddr (wMsg w) = None ->
  (isTCP network || isUDP network) && notLiteralIP env address = false ->
  (isTCP network = true ->
   after = Some (net.TCP (fst (ResolveTCPAddr env network address (wExt w))))) /\
  (isTCP network = false -> isUDP network = true ->
   after = Some (net.UDP (fst (ResolveUDPAddr env network address (wExt w))))) /\
  (isTCP network = false -> isUDP network = false -> network = "unix" ->
   after = Some (net.Unix (fst (ResolveUnixAddr env network address (wExt w))))) /\
  (isTCP network = false -> isUDP network = false -> network <> "unix" ->
   after = Some (net.TCP (fst (ResolveTCPAddr env "tcp4" address (wExt w))))).
Proof.
  cbv zeta. intros H0 Hg. unfold ensureMsgRemoteAddr. run. rewrite H0, Hg.
  destruct (isTCP network);
    [|destruct (isUDP network); [|destruct (String.eqb_spec network "unix")]].
  all: run.
  all: repeat split; intros; try discriminate; try contradiction.
  - destruct (ResolveTCPAddr env network address (wExt w)); reflexivity.
  - destruct (ResolveUDPAddr env network address (wExt w)); reflexivity.
  - destruct (ResolveUnixAddr env network address (wExt w)); reflexivity.
  - destruct (ResolveTCPAddr env "tcp4" address (wExt w)); reflexivity.
Qed.

(** When the resolver of a TCP network fails, the message holds an
    interface value around a nil pointer, which is not nil. *)
Lemma ensureMsgRemoteAddr_typed_nil (network address : string) (w : World) :
  codec.RemoteAddr (wMsg w) = None ->
  isTCP network = true ->
  notLiteralIP env address = false ->
  fst (ResolveTCPAddr env network address (wExt w)) = None ->
  codec.RemoteAddr (wMsg (snd (ensureMsgRemoteAddr env network address w)))
  = Some (net.TCP None).
Proof.
  intros H0 Hn Ha Hr.
  destruct (ensureMsgRemoteAddr_resolves network address w H0) as [H _].
  - rewrite Ha. apply andb_false_r.
  - rewrite (H Hn), Hr. reflexivity.
Qed.

End Properties.

(** *** The properties on the concrete world *)
Section Runs.
Import Sample.

Local Abbreviation E := (env options).
Local Abbreviation W := (world options message).

(** C5 at three option sets: no interceptor; one interceptor, selector
    filter not pinned; the selector filter pinned between two. *)
Lemma fixFilters_effective_chain_witness :
  let pinned := [UserFilterRef 1; SelectorFilterRef; UserFilterRef 2] in
  fst (fixFilters E 0%nat W) = [SelectorFilterRef] /\
  fst (fixFilters E 0%nat (world (withFilters [UserFilterRef 1] false) message))
  = [UserFilterRef 1; SelectorFilterRef] /\
  fst (fixFilters E 0%nat (world (withFilters pinned true) message)) = pinned.
Proof.
  cbv zeta. split; [|split].
  - exact (proj1 (fixFilters_effective_chain E 0 W) (or_intror eq_refl)).
  - exact (proj1 (proj2 (fixFilters_effective_chain E 0
                           (world (withFilters [UserFilterRef 1] false) message)))
             eq_refl ltac:(discriminate) eq_refl).
  - exact (proj1 (proj2 (proj2 (fixFilters_effective_chain E 0
             (world (withFilters [UserFilterRef 1; SelectorFilterRef; UserFilterRef 2] true)
                    message)))
             eq_refl ltac:(discriminate) eq_refl)).
Defined.

(** C8 with a valid type (2, from the message) and with none valid. *)
Lemma serialization_type_in_force_witness :
  let none := world options (messageWith (-1) 0) in
  (exists rest, wTrace (snd (serializeAndCompress E "hello" 0%nat W))
                = wTrace W ++ EvMarshal 2 "hello" :: rest /\
                filter isMarshal rest = []) /\
  fst (serializeAndCompress E "hello" 0%nat none) = inl [] /\
  snd (serializeAndCompress E "hello" 0%nat none) = none.
Proof.
  cbv zeta. split.
  - exact (proj1 (proj2 (serialization_type_in_force E "hello" 0%nat W)) eq_refl).
  - exact (proj1 (proj2 (proj2 (proj2 (serialization_type_in_force E "hello" 0%nat
                                         (world options (messageWith (-1) 0)))) eq_refl))
             eq_refl).
Defined.

(** C10 with compress type 1 in force and no valid serialization type. *)
Lemma compress_does_not_skip_empty_witness :
  let w := world (withCompress 1) (messageWith (-1) 0) in
  wTrace (snd (serializeAndCompress E "hello" 0%nat w)) = [EvCompress 1 []] /\
  processResponseBuf E 7%nat [] 0%nat w = (None, w).
Proof.
  cbv zeta.
  destruct (compress_does_not_skip_empty E "hello" 0%nat
              (world (withCompress 1) (messageWith (-1) 0)) eq_refl ltac:(discriminate))
    as (H1 & _ & H3).
  split.
  - exact (proj1 (H1 eq_refl)).
  - exact (H3 7%nat eq_refl).
Defined.

(** C3 with a codec whose [Decode] leaves a business error next to the
    five bytes of the body. *)
Lemma response_error_wins_witness :
  let w := world (withCodec (codecOf (Some businessError))) message in
  let res := callFunc E (ctx None) "hello" 7%nat w in
  fst res = Some businessError /\ wBodies (snd res) = wBodies w.
Proof.
  cbv zeta.
  destruct (response_error_wins E (ctx None) "hello" 7%nat
              (world (withCodec (codecOf (Some businessError))) message)
              (snd (prepareRequestBuf E (codecOf (Some businessError)) "hello" 0%nat
                      (world (withCodec (codecOf (Some businessError))) message)))
              (codecOf (Some businessError))
              (list_byte_of_string "hello") (list_byte_of_string "hello")
              (list_byte_of_string "hello") message
              (codec.WithClientRspErr (Some businessError) message) 5000 businessError
              eq_refl eq_refl eq_refl eq_refl eq_refl)
    as (_ & H2 & H3 & _).
  split; [|exact H3].
  apply H2.
  - left. reflexivity.
  - intros (e & He & Hc). inversion He. subst e. discriminate Hc.
Defined.

(** C9 with a send-only transport and with one that cannot connect. *)
Lemma no_response_is_success_witness :
  fst (callFunc E (ctx None) "hello" 7%nat (world (withTransport sendOnly) message)) = None /\
  fst (callFunc E (ctx None) "hello" 7%nat (world (withTransport unreachable) message))
  = Some (errs.NewFrameError errs.RetClientNetErr "connection reset").
Proof.
  split.
  - destruct (no_response_is_success E (ctx None) "hello" 7%nat
                (world (withTransport sendOnly) message)
                (snd (prepareRequestBuf E (codecOf None) "hello" 0%nat
                        (world (withTransport sendOnly) message)))
                (codecOf None) (list_byte_of_string "hello") message 5000
                errs.ErrClientNoResponse eq_refl eq_refl eq_refl (or_introl eq_refl))
      as (_ & _ & H & _).
    exact (H eq_refl).
  - destruct (no_response_is_success E (ctx None) "hello" 7%nat
                (world (withTransport unreachable) message)
                (snd (prepareRequestBuf E (codecOf None) "hello" 0%nat
                        (world (withTransport unreachable) message)))
                (codecOf None) (list_byte_of_string "hello") message 5000
                (errs.NewFrameError errs.RetClientNetErr "connection reset")
                eq_refl eq_refl eq_refl (or_introl eq_refl))
      as (_ & _ & _ & H).
    exact (proj1 (H ltac:(discriminate))).
Defined.

(** C6 with a selector that fails and with one that returns a node
    without address. *)
Lemma route_failure_stops_the_call_witness :
  let run s := selectorFilter E (ctx None) "hello" 7%nat (callFunc E)
                              (world (withSelector s) message) in
  (exists text, fst (run (selectorOf None))
                = Some (errs.NewFrameError errs.RetClientRouteErr text)) /\
  (exists text, fst (run (selectorOf (Some "")))
                = Some (errs.NewFrameError errs.RetClientRouteErr text)) /\
  wTrace (snd (run (selectorOf (Some ""))))
  = [EvSelect "svcA" [selector.WithContext (ctx None)]].
Proof.
  cbv zeta. split; [|split].
  - exact (proj1 (route_failure_stops_the_call E (ctx None) "hello" 7%nat (callFunc E)
                    (world (withSelector (selectorOf None)) message)
                    (or_introl eq_refl)
                    (or_introl (ex_intro _ (errs.Other "no instance") eq_refl)))).
  - exact (proj1 (route_failure_stops_the_call E (ctx None) "hello" 7%nat (callFunc E)
                    (world (withSelector (selectorOf (Some ""))) message)
                    (or_introl eq_refl)
                    (or_intror (ex_intro _ (node "") (conj eq_refl eq_refl))))).
  - exact (proj1 (proj2 (route_failure_stops_the_call E (ctx None) "hello" 7%nat (callFunc E)
                    (world (withSelector (selectorOf (Some ""))) message)
                    (or_introl eq_refl)
                    (or_intror (ex_intro _ (node "") (conj eq_refl eq_refl)))))).
Defined.

(** C2, as stated, fails twice.  When the selector fails, the call
    enters [selectorFilter] and nothing is reported.  When the user
    predicate holds of nil and the call succeeds, the predicate holds of
    the error of [next] and the reported error is nil. *)
Lemma report_claim_fails :
  let always := fun _ : errs.error => true in
  let run o := selectorFilter E (ctx None) "hello" 7%nat (callFunc E) (world o message) in
  List.length (filter isReport (wTrace (snd (run (withSelector (selectorOf None))))))
  <> 1%nat /\
  fst (run (withReports always)) = None /\
  shouldErrReportToSelector (withReports always) (fst (run (withReports always))) = true /\
  filter isReport (wTrace (snd (run (withReports always))))
  = [EvReport (node "10.0.0.1:8000") 5001 None].
Proof.
  cbv zeta. split; [|split; [|split]].
  - vm_compute. discriminate.
  - reflexivity.
  - reflexivity.
  - reflexivity.
Qed.

(** C2, amended, on a call that cannot connect: the one report carries
    the error with the cost appended, and that error is returned. *)
Lemma report_follows_next_witness :
  let w := world (withTransport unreachable) message in
  let res := selectorFilter E (ctx None) "hello" 7%nat (callFunc E) w in
  let failure := Some (errs.Ptr {| errs.Type_ := errs.ErrorTypeFramework;
                                   errs.Code := errs.RetClientNetErr;
                                   errs.Msg := "connection reset, cost:under 1ms" |}) in
  selectNode E (ctx None) 0%nat w = (inl (node "10.0.0.1:8000"), snd (selectNode E (ctx None) 0%nat w)) /\
  filter isReport (wTrace (snd res)) = [EvReport (node "10.0.0.1:8000") 5001 failure] /\
  fst res = failure.
Proof.
  cbv zeta.
  assert (Hs : selectNode E (ctx None) 0%nat (world (withTransport unreachable) message)
               = (inl (node "10.0.0.1:8000"),
                  snd (selectNode E (ctx None) 0%nat
                         (world (withTransport unreachable) message))))
    by (vm_compute; reflexivity).
  destruct (report_follows_next E (ctx None) "hello" 7%nat (callFunc E)
              (world (withTransport unreachable) message)
              (snd (selectNode E (ctx None) 0%nat (world (withTransport unreachable) message)))
              (node "10.0.0.1:8000") Hs)
    as (H1 & _ & H3).
  split; [exact Hs|]. split.
  - rewrite H1. vm_compute. reflexivity.
  - rewrite H3. vm_compute. reflexivity.
Defined.

(** C1, as stated, fails.  Interceptor 0 returns a timeout of its own;
    the context has a deadline and the options no timeout, so the
    adapter of the call is [mayConvert2FullLinkTimeout]; [Invoke]
    returns the timeout as it is, which no error that has been through
    that adapter can be. *)
Lemma interceptor_error_skips_fixTimeout :
  let o := withFilters [UserFilterRef 0] false in
  let res := Invoke (env o) (ctx (Some 100)) "hello" 7%nat [] (world o message) in
  fixTimeout (wOptions (snd res) 1%nat) = mayConvert2FullLinkTimeout /\
  fst res = Some timeoutError /\
  forall e0, mayConvert2FullLinkTimeout e0 <> fst res.
Proof.
  cbv zeta. split; [reflexivity|]. split; [reflexivity|].
  intros e0 H.
  change (mayConvert2FullLinkTimeout e0 = Some timeoutError) in H.
  unfold mayConvert2FullLinkTimeout in H.
  destruct e0 as [[e| |t]|]; try discriminate H.
  destruct (errs.RetCode_eqb (errs.Code e) errs.RetClientTimeout) eqn:Hc.
  - discriminate H.
  - inversion H. subst e. discriminate Hc.
Qed.

(** C1, amended, on a call that cannot connect, under the full-link
    adapter. *)
Lemma errors_pass_fixTimeout_witness :
  let o := optionsWith 0 mayConvert2FullLinkTimeout [] false false (Some (codecOf None))
                       unreachable (selectorOf (Some "10.0.0.1:8000")) (fun _ => false)
                       (-1) (-1) in
  let w := world o message in
  let f := fixTimeout (wOptions w (OptionsFromContext (ctx None))) in
  let err := fst (ClientChain_Filter (map (filterOf E) [SelectorFilterRef])
                    (ctx None) "hello" 7%nat (callFunc E) w) in
  (forall n (o' : Options Body Ext), fixTimeout (LoadNodeConfig E n o') = fixTimeout o') /\
  f = mayConvert2FullLinkTimeout /\
  (exists e0, fst (callFunc E (ctx None) "hello" 7%nat w) = f e0) /\
  (exists e0, err = f e0 \/
              exists e cost, transportFailure (f e0) = Some e /\
                             err = Some (errs.Ptr (withCost E e cost))) /\
  (forall (g : ClientFilter Body Ext) (e : errs.error) (rest : list (ClientFilter Body Ext)),
     (forall ctx' req' rsp' next, g ctx' req' rsp' next = ret e) ->
     fst (ClientChain_Filter (g :: rest) (ctx None) "hello" 7%nat (callFunc E) w) = e).
Proof.
  cbv zeta. split; [intros n o'; reflexivity|]. split; [reflexivity|].
  exact (errors_pass_fixTimeout E (ctx None) "hello" 7%nat
           (world (optionsWith 0 mayConvert2FullLinkTimeout [] false false
                               (Some (codecOf None)) unreachable
                               (selectorOf (Some "10.0.0.1:8000")) (fun _ => false)
                               (-1) (-1)) message)
           (fun _ _ => eq_refl)).
Defined.

(** C4 with a deadline at 100ns and no timeout of its own, and with no
    deadline at all. *)
Lemma full_link_deadline_marks_the_call_witness :
  let w := world options message in
  let marked c := snd (markFullLinkTimeout E (context.Deadline c) 1%nat
                         (snd (beforeFullLinkCheck E c options w))) in
  getOptions E (wMsg w) [] = inl options /\
  time.is_Duration (Timeout options) /\
  fixTimeout (wOptions (marked (ctx (Some 100))) 1%nat) = mayConvert2FullLinkTimeout /\
  fixTimeout (wOptions (marked (ctx None)) 1%nat) = defaultFixTimeout.
Proof.
  cbv zeta.
  assert (Hd : time.is_Duration (Timeout options)).
  { unfold time.is_Duration, time.minDuration, time.maxDuration. cbn. lia. }
  split; [reflexivity|]. split; [exact Hd|]. split.
  - destruct (full_link_deadline_marks_the_call E (ctx (Some 100)) "hello" 7%nat []
                options (world options message) eq_refl Hd) as (_ & H & _).
    apply H. exists 100. split; [reflexivity|]. left. cbn. lia.
  - destruct (full_link_deadline_marks_the_call E (ctx None) "hello" 7%nat []
                options (world options message) eq_refl Hd) as (_ & _ & H).
    apply H. intros (d & Hdl & _). discriminate Hdl.
Defined.

(** C7 at a literal IP whose port is out of range.  The message has no
    remote address; the network is "tcp"; the address splits and its
    host is a literal IP; the resolver fails.  The remote address is
    then an interface value around a nil [*TCPAddr]: [msg.RemoteAddr()
    != nil] holds, and [selectorFilter] publishes the text of that
    value instead of the address of the node. *)
Theorem resolution_error_leaves_typed_nil :
  let w := world options message in
  let w' := snd (ensureMsgRemoteAddr E "tcp" "1.2.3.4:99999" w) in
  let res := selectorFilter E (ctx None) "hello" 7%nat (callFunc E)
                            (world (withSelector (selectorOf (Some "1.2.3.4:99999")))
                                   message) in
  codec.RemoteAddr (wMsg w) = None /\
  notLiteralIP E "1.2.3.4:99999" = false /\
  fst (ResolveTCPAddr E "tcp" "1.2.3.4:99999" (wExt w)) = None /\
  codec.RemoteAddr (wMsg w') = Some (net.TCP None) /\
  codec.RemoteAddr (wMsg w') <> None /\
  option_map registry.Address (Node (wOptions (snd res) 0%nat))
  = Some (Addr_String E (net.TCP None)).
Proof.
  cbv zeta. repeat split; try reflexivity. discriminate.
Qed.

End Runs.

End client.
